(** * FeReader: a shallow embedding of [main.py]

    The reader window of [main.py] keeps six fields (book type, path, title,
    pages, cursor, font size) and reacts to toolbar actions.  The methods are
    embedded as computations in a state-and-exception monad over a record
    holding those six fields and the log of the calls made to the GUI
    toolkit.  The document libraries (PyPDF2, ebooklib, BeautifulSoup) are
    parameters of the embedding, collected in a record of their outcomes. *)

From Stdlib Require Import ZArith List String Ascii Bool Lia.
From Stdlib Require Import DecimalString.
Import ListNotations.

Local Open Scope Z_scope.

(** ** Python values *)

Module Py.

(** A Python [str] is a sequence of code points. *)
Definition char : Type := N.
Definition str : Type := list char.

(** The [str] of a literal of the source. *)
Definition lit (s : string) : str :=
  List.map N_of_ascii (list_ascii_of_string s).

(** The empty string. *)
Definition empty_str : str := [].

Definition str_eqb (a b : str) : bool :=
  if list_eq_dec N.eq_dec a b then true else false.

(** [len(l)] *)
Definition len {A : Type} (l : list A) : Z := Z.of_nat (List.length l).

(** [str(n)] for an [int], as f-strings format it. *)
Definition str_of_int (n : Z) : str :=
  lit (NilZero.string_of_int (Z.to_int n)).

(** Code points for which [str.isspace] holds; [str.strip()] removes them
    from both ends. *)
Definition isspace (c : char) : bool :=
  let c := Z.of_N c in
  ((9 <=? c) && (c <=? 13)) || ((28 <=? c) && (c <=? 32))
  || (c =? 133) || (c =? 160) || (c =? 5760)
  || ((8192 <=? c) && (c <=? 8202))
  || (c =? 8232) || (c =? 8233) || (c =? 8239) || (c =? 8287)
  || (c =? 12288).

Fixpoint lstrip (s : str) : str :=
  match s with
  | c :: s' => if isspace c then lstrip s' else s
  | [] => []
  end.

Definition rstrip (s : str) : str := rev (lstrip (rev s)).

Definition strip (s : str) : str := rstrip (lstrip s).

(** Truth value of a string: the empty string is false. *)
Definition truthy (s : str) : bool :=
  match s with [] => false | _ :: _ => true end.

(** [str.lower()] on the letters A to Z.  Other code points are kept: no
    code point outside A to Z lowers to a letter of [".pdf"] or [".epub"],
    so comparisons with these two literals are decided as in Python. *)
Definition lower_char (c : char) : char :=
  if ((65 <=? c) && (c <=? 90))%N then (c + 32)%N else c.

Definition lower (s : str) : str := List.map lower_char s.

(** [p.rfind(c)] for a one-character [c]: the highest index of [c] in [p],
    or [-1]. *)
Fixpoint rfind_from (c : char) (p : str) (i : Z) (found : Z) : Z :=
  match p with
  | [] => found
  | d :: p' => rfind_from c p' (i + 1) (if N.eqb d c then i else found)
  end.

Definition rfind (c : char) (p : str) : Z := rfind_from c p 0 (-1).

(** Slices [p[:i]], [p[i:]] and [p[i:j]] for indices [0 <= i <= j]. *)
Definition slice_to (p : str) (i : Z) : str := firstn (Z.to_nat i) p.
Definition slice_from (p : str) (i : Z) : str := skipn (Z.to_nat i) p.
Definition slice (p : str) (i j : Z) : str := slice_to (slice_from p i) (j - i).

Definition dot : char := 46%N.
Definition slash : char := 47%N.

(** [os.path.splitext(p)] (the generic [_splitext] with separator ["/"],
    the separator of every path the file dialog returns): the extension
    starts at the last dot of the last path component, unless that
    component has only dots before it. *)
Definition splitext (p : str) : str * str :=
  let sepIndex := rfind slash p in
  let dotIndex := rfind dot p in
  if (dotIndex >? sepIndex)
     && existsb (fun c => negb (N.eqb c dot)) (slice p (sepIndex + 1) dotIndex)
  then (slice_to p dotIndex, slice_from p dotIndex)
  else (p, []).

(** [s.endswith(suffix)] *)
Definition endswith (s suffix : str) : bool :=
  (List.length suffix <=? List.length s)%nat
  && str_eqb (skipn (List.length s - List.length suffix) s) suffix.

(** [os.path.basename(p)] *)
Definition basename (p : str) : str := slice_from p (rfind slash p + 1).

(** Exceptions, all of them instances of [Exception]. *)
Inductive exn : Type :=
| IndexError
| Error (message : str).

Definition str_of_exn (e : exn) : str :=
  match e with
  | IndexError => lit "list index out of range"
  | Error m => m
  end.

(** The outcome of evaluating an expression: a value or a raised
    exception. *)
Inductive result (A : Type) : Type :=
| Ok (a : A)
| Raise (e : exn).
Arguments Ok {A} a.
Arguments Raise {A} e.

(** [l[i]]: negative indices count from the end. *)
Definition getitem {A : Type} (l : list A) (i : Z) : result A :=
  let j := if i <? 0 then i + len l else i in
  if (0 <=? j) && (j <? len l)
  then match nth_error l (Z.to_nat j) with
       | Some a => Ok a
       | None => Raise IndexError
       end
  else Raise IndexError.

(** An iterator as a [for] loop sees it: it yields finitely many values and
    then either stops or raises. *)
Inductive iter (A : Type) : Type :=
| Stop
| Yield (a : A) (rest : iter A)
| Throw (e : exn).
Arguments Stop {A}.
Arguments Yield {A} a rest.
Arguments Throw {A} e.

End Py.

Import Py.

(** ** The state-and-exception monad

    A method runs on the window and returns a value or raises; the changes
    it made to the window before raising are kept, as in Python. *)

Module Eff.

Section Monad.
Variable S : Type.

Definition M (A : Type) : Type := S -> result A * S.

Definition ret {A : Type} (a : A) : M A := fun s => (Ok a, s).

Definition bind {A B : Type} (m : M A) (k : A -> M B) : M B :=
  fun s =>
    match m s with
    | (Ok a, s') => k a s'
    | (Raise e, s') => (Raise e, s')
    end.

Definition raise {A : Type} (e : exn) : M A := fun s => (Raise e, s).

Definition get : M S := fun s => (Ok s, s).

Definition modify (f : S -> S) : M unit := fun s => (Ok tt, f s).

(** [try: m  except Exception as e: handler e] *)
Definition try_except {A : Type} (m : M A) (handler : exn -> M A) : M A :=
  fun s =>
    match m s with
    | (Ok a, s') => (Ok a, s')
    | (Raise e, s') => handler e s'
    end.

(** The value of an expression that may raise. *)
Definition eval {A : Type} (r : result A) : M A := fun s => (r, s).

(** [for a in it: body a] *)
Fixpoint for_each {A : Type} (it : iter A) (body : A -> M unit) : M unit :=
  match it with
  | Stop => ret tt
  | Yield a rest => bind (body a) (fun _ => for_each rest body)
  | Throw e => raise e
  end.
End Monad.

Arguments ret {S A} a.
Arguments bind {S A B} m k.
Arguments raise {S A} e.
Arguments get {S}.
Arguments modify {S} f.
Arguments try_except {S A} m handler.
Arguments eval {S A} r.
Arguments for_each {S A} it body.

End Eff.

Import Eff.

Declare Scope eff_scope.
Delimit Scope eff_scope with eff.
Notation "x <- m ;; k" := (bind m (fun x => k))
  (at level 100, m at next level, right associativity) : eff_scope.
Notation "m ;; k" := (bind m (fun _ => k))
  (at level 100, right associativity) : eff_scope.

(** ** The libraries and the toolkit *)

(** A page of a PDF document: what [page.extract_text()] does. *)
Record PageObject : Type := { extract_text : result (option str) }.

(** An EPUB document item, by its decoded content
    [item.get_content().decode("utf-8", errors="ignore")].  An item whose
    content cannot be fetched is an iterator that raises at that item: in
    both cases the loop ends there with nothing appended for the item. *)
Record EpubItem : Type := { get_content : str }.

(** What the document libraries do on the files of the machine:
    [PdfReader(path).pages], [epub.read_epub(path).get_items_of_type(ITEM_DOCUMENT)]
    and [BeautifulSoup(raw_html, "html.parser").prettify()].  The first two
    raise when the file cannot be read, or yield an iterator that may itself
    raise part way (the reader resolves its pages when they are asked for
    and the items come from a generator). *)
Record Libraries : Type := {
  PdfReader : str -> result (iter PageObject);
  read_epub : str -> result (iter EpubItem);
  prettify : str -> result str
}.

(** The calls made to the toolkit, in the order they are made, and the
    evaluations of [self.pages[i]]. *)
Inductive Event : Type :=
| getOpenFileName (caption directory filter : str)
| warning (title text : str)
| critical (title text : str)
| information (title text : str)
| getInt (title label : str) (value min max : Z)
| setPlainText (text : str)
| setHtml (text : str)
| setPointSize (size : Z)
| showMessage (text : str)
| Subscript (i : Z).

(** What the user does in the page-number dialog. *)
Inductive IntReply : Type :=
| Accepted (typed : Z)
| Cancelled.

(** [QInputDialog.getInt(value, min, max)]: the spin box keeps the number
    within [min, max]; a cancelled dialog returns [value] and [False]. *)
Definition QInputDialog_getInt (value min max : Z) (reply : IntReply) : Z * bool :=
  match reply with
  | Accepted typed => (Z.max min (Z.min max typed), true)
  | Cancelled => (value, false)
  end.

(** ** The reader window *)

Record Window : Type := {
  current_book_type : option str;
  current_book_path : option str;
  current_book_title : str;
  pages : list str;
  current_index : Z;
  current_font_size : Z;
  events : list Event
}.

Definition set_current_book_type (v : option str) (w : Window) : Window :=
  {| current_book_type := v; current_book_path := current_book_path w;
     current_book_title := current_book_title w; pages := pages w;
     current_index := current_index w; current_font_size := current_font_size w;
     events := events w |}.

Definition set_current_book_path (v : option str) (w : Window) : Window :=
  {| current_book_type := current_book_type w; current_book_path := v;
     current_book_title := current_book_title w; pages := pages w;
     current_index := current_index w; current_font_size := current_font_size w;
     events := events w |}.

Definition set_current_book_title (v : str) (w : Window) : Window :=
  {| current_book_type := current_book_type w; current_book_path := current_book_path w;
     current_book_title := v; pages := pages w;
     current_index := current_index w; current_font_size := current_font_size w;
     events := events w |}.

Definition set_pages (v : list str) (w : Window) : Window :=
  {| current_book_type := current_book_type w; current_book_path := current_book_path w;
     current_book_title := current_book_title w; pages := v;
     current_index := current_index w; current_font_size := current_font_size w;
     events := events w |}.

Definition set_current_index (v : Z) (w : Window) : Window :=
  {| current_book_type := current_book_type w; current_book_path := current_book_path w;
     current_book_title := current_book_title w; pages := pages w;
     current_index := v; current_font_size := current_font_size w;
     events := events w |}.

Definition set_current_font_size (v : Z) (w : Window) : Window :=
  {| current_book_type := current_book_type w; current_book_path := current_book_path w;
     current_book_title := current_book_title w; pages := pages w;
     current_index := current_index w; current_font_size := v;
     events := events w |}.

Definition set_events (v : list Event) (w : Window) : Window :=
  {| current_book_type := current_book_type w; current_book_path := current_book_path w;
     current_book_title := current_book_title w; pages := pages w;
     current_index := current_index w; current_font_size := current_font_size w;
     events := v |}.

(** A call to the toolkit is appended to the log. *)
Definition call (e : Event) : M Window unit :=
  modify (fun w => set_events (events w ++ [e]) w).

(** [self.pages.append(content)] *)
Definition pages_append (content : str) : M Window unit :=
  modify (fun w => set_pages (pages w ++ [content]) w).

(** [self.pages[i]] *)
Definition pages_getitem (i : Z) : M Window str :=
  (call (Subscript i);;
   self <- get;;
   eval (getitem (pages self) i))%eff.

Definition newline : str := [10%N].

(** [a == b] where either side may be [None]. *)
Definition str_option_eqb (a b : option str) : bool :=
  match a, b with
  | Some x, Some y => str_eqb x y
  | None, None => true
  | _, _ => false
  end.

Section Methods.

Variable lib : Libraries.

Local Open Scope eff_scope.

Definition _update_statusbar : M Window unit :=
  self <- get;;
  let info :=
    match pages self with
    | _ :: _ =>
        current_book_title self ++ lit "  |  Page "
        ++ str_of_int (current_index self + 1) ++ lit " / "
        ++ str_of_int (len (pages self))
    | [] => lit "No document loaded"
    end in
  call (showMessage info).

Definition _update_view : M Window unit :=
  self <- get;;
  match pages self with
  | [] => call (setPlainText (lit "No document loaded."))
  | _ :: _ =>
      content <- pages_getitem (current_index self);;
      if str_option_eqb (current_book_type self) (Some (lit "epub"))
      then call (setHtml content)
      else call (setPlainText content)
  end;;
  self <- get;;
  call (setPointSize (current_font_size self));;
  _update_statusbar.

(** The body of the loop of [load_pdf]. *)
Definition load_pdf_page (page : PageObject) : M Window unit :=
  text <- try_except
            (t <- eval (extract_text page);;
             ret (match t with
                  | Some t' => if truthy t' then t' else empty_str
                  | None => empty_str
                  end))
            (fun _ => ret empty_str);;
  pages_append (if truthy (strip text) then text else lit "[Empty page]").

Definition load_pdf (path : str) : M Window unit :=
  modify (set_current_book_type (Some (lit "pdf")));;
  modify (set_pages []);;
  reader_pages <- eval (PdfReader lib path);;
  for_each reader_pages load_pdf_page.

(** The body of the loop of [load_epub]. *)
Definition load_epub_item (item : EpubItem) : M Window unit :=
  let raw_html := get_content item in
  clean_html <- eval (prettify lib raw_html);;
  pages_append clean_html.

Definition load_epub (path : str) : M Window unit :=
  modify (set_current_book_type (Some (lit "epub")));;
  modify (set_pages []);;
  items <- eval (read_epub lib path);;
  for_each items load_epub_item;;
  self <- get;;
  match pages self with
  | [] => pages_append (lit "<h3>No readable content found.</h3>")
  | _ :: _ => ret tt
  end.

Definition dialog_filter : str :=
  lit "Documents (*.pdf *.epub);;PDF Files (*.pdf);;EPUB Files (*.epub);;All Files (*.*)".

(** [path] is what the file dialog returns: the file the user selected, or
    the empty string when the dialog is dismissed.  The [return]s inside
    the [try] statement are rendered by the flag that the statement
    yields: [true] when control reaches the statements after it. *)
Definition open_file (path : str) : M Window unit :=
  call (getOpenFileName (lit "Open document") empty_str dialog_filter);;
  if negb (truthy path) then ret tt
  else
    let ext := lower (snd (splitext path)) in
    loaded <- try_except
                (if str_eqb ext (lit ".pdf") then load_pdf path;; ret true
                 else if str_eqb ext (lit ".epub") then load_epub path;; ret true
                 else
                   call (warning (lit "Unsupported file")
                                 (lit "Only PDF and EPUB are supported."));;
                   ret false)
                (fun e =>
                   call (critical (lit "Error")
                                  (lit "Failed to open file:" ++ newline ++ str_of_exn e));;
                   ret false);;
    if loaded : bool then
      modify (set_current_book_path (Some path));;
      modify (set_current_book_title (basename path));;
      modify (set_current_index 0);;
      _update_view
    else ret tt.

Definition go_prev : M Window unit :=
  self <- get;;
  match pages self with
  | [] => ret tt
  | _ :: _ =>
      if current_index self >? 0 then
        modify (set_current_index (current_index self - 1));;
        _update_view
      else ret tt
  end.

Definition go_next : M Window unit :=
  self <- get;;
  match pages self with
  | [] => ret tt
  | _ :: _ =>
      if current_index self <? len (pages self) - 1 then
        modify (set_current_index (current_index self + 1));;
        _update_view
      else ret tt
  end.

Definition go_to_page_dialog (reply : IntReply) : M Window unit :=
  self <- get;;
  match pages self with
  | [] => ret tt
  | _ :: _ =>
      let max_page := len (pages self) in
      let current_page_display := current_index self + 1 in
      call (getInt (lit "Go to page")
                   (lit "Enter page number (1 - " ++ str_of_int max_page ++ lit "):")
                   current_page_display 1 max_page);;
      let (value, ok) := QInputDialog_getInt current_page_display 1 max_page reply in
      if ok then
        modify (set_current_index (value - 1));;
        _update_view
      else ret tt
  end.

Definition zoom_in : M Window unit :=
  modify (fun self => set_current_font_size (current_font_size self + 1) self);;
  self <- get;;
  (if current_font_size self >? 40 then modify (set_current_font_size 40) else ret tt);;
  _update_view.

Definition zoom_out : M Window unit :=
  modify (fun self => set_current_font_size (current_font_size self - 1) self);;
  self <- get;;
  (if current_font_size self <? 8 then modify (set_current_font_size 8) else ret tt);;
  _update_view.

Definition show_about : M Window unit :=
  call (information (lit "About FeReader")
          (lit "FeReader" ++ newline ++ lit "Simple PDF & EPUB Reader" ++ newline
           ++ lit "Powered by PyQt5, PyPDF2, and ebooklib.")).

(** The fields as [__init__] sets them, before the first redraw. *)
Definition fresh : Window :=
  {| current_book_type := None; current_book_path := None;
     current_book_title := lit "Untitled"; pages := [];
     current_index := 0; current_font_size := 12; events := [] |}.

(** [__init__]: the status bar is created (and filled) and the view drawn. *)
Definition init : result unit * Window :=
  (_update_statusbar;; _update_view) fresh.

(** The toolbar actions, with what the user answers to the dialog an
    action opens. *)
Inductive Action : Type :=
| Open (path : str)
| Prev
| Next
| GoTo (reply : IntReply)
| ZoomIn
| ZoomOut
| About.

Definition trigger (a : Action) : M Window unit :=
  match a with
  | Open path => open_file path
  | Prev => go_prev
  | Next => go_next
  | GoTo reply => go_to_page_dialog reply
  | ZoomIn => zoom_in
  | ZoomOut => zoom_out
  | About => show_about
  end.

End Methods.

(** ** The file dialog's name filters

    The toolkit splits the filter string at [";;"], takes from each filter
    the patterns between its parentheses, separated by spaces, and lists a
    file when its name matches one of the patterns of the filter the user
    picked; [*] stands for any run of characters, [?] for one character, and
    letters match regardless of case. *)

Module FileDialog.

Definition semicolon : char := 59%N.
Definition space : char := 32%N.
Definition star : char := 42%N.
Definition question : char := 63%N.

Fixpoint split_filters_from (s cur : str) : list str :=
  match s with
  | [] => [rev cur]
  | c :: s' =>
      match s' with
      | d :: s'' =>
          if N.eqb c semicolon && N.eqb d semicolon
          then rev cur :: split_filters_from s'' []
          else split_filters_from s' (c :: cur)
      | [] => split_filters_from s' (c :: cur)
      end
  end.

Definition split_filters (s : str) : list str := split_filters_from s [].

(** The words of [s]: its maximal runs without a space. *)
Fixpoint words_from (s cur : str) : list str :=
  match s with
  | [] => match cur with [] => [] | _ :: _ => [rev cur] end
  | c :: s' =>
      if N.eqb c space
      then match cur with
           | [] => words_from s' []
           | _ :: _ => rev cur :: words_from s' []
           end
      else words_from s' (c :: cur)
  end.

Definition words (s : str) : list str := words_from s [].

(** The patterns of one filter: the words between its last opening
    parenthesis and its closing one. *)
Definition patterns_of (filter : str) : list str :=
  let i := rfind 40%N filter in
  let j := rfind 41%N filter in
  words (if (0 <=? i) && (i <? j) then slice filter (i + 1) j else filter).

(** Every pattern the filter string offers. *)
Definition offered_patterns (filters : str) : list str :=
  flat_map patterns_of (split_filters filters).

Fixpoint wildcard (p : str) : str -> bool :=
  match p with
  | [] => fun s => match s with [] => true | _ :: _ => false end
  | c :: p' =>
      if N.eqb c star then
        fix skip (s : str) : bool :=
          wildcard p' s || match s with [] => false | _ :: s' => skip s' end
      else if N.eqb c question then
        fun s => match s with [] => false | _ :: s' => wildcard p' s' end
      else
        fun s => match s with [] => false | d :: s' => N.eqb c d && wildcard p' s' end
  end.

(** Whether the dialog lists the file [name] under the pattern. *)
Definition matches (pattern name : str) : bool :=
  wildcard (lower pattern) (lower name).

(** The name ends in [.pdf] or [.epub], in either case of the letters. *)
Definition is_pdf_or_epub (name : str) : bool :=
  endswith (lower name) (lit ".pdf") || endswith (lower name) (lit ".epub").

(** The filter string restricts the dialog to such names: no pattern it
    offers matches any other name. *)
Definition restricted_to_pdf_and_epub (filters : str) : Prop :=
  forall pattern name,
    In pattern (offered_patterns filters) ->
    matches pattern name = true ->
    is_pdf_or_epub name = true.

End FileDialog.

(** ** Properties of the window *)

(** The cursor designates a page: an integer in [0, len(pages) - 1]. *)
Definition cursor_in_range (w : Window) : Prop :=
  0 <= current_index w <= len (pages w) - 1.

Definition font_in_range (w : Window) : Prop :=
  8 <= current_font_size w <= 40.

(** The six fields of the reader state agree (the log may differ). *)
Definition same_fields (w w' : Window) : Prop :=
  current_book_type w' = current_book_type w
  /\ current_book_path w' = current_book_path w
  /\ current_book_title w' = current_book_title w
  /\ pages w' = pages w
  /\ current_index w' = current_index w
  /\ current_font_size w' = current_font_size w.

(** The document and the cursor agree (font size and log may differ). *)
Definition same_document (w w' : Window) : Prop :=
  current_book_type w' = current_book_type w
  /\ current_book_path w' = current_book_path w
  /\ current_book_title w' = current_book_title w
  /\ pages w' = pages w
  /\ current_index w' = current_index w.

(** The windows the program can be in: the one [__init__] builds, and the
    one any action leaves behind. *)
Inductive reachable (lib : Libraries) : Window -> Prop :=
| reachable_init : reachable lib (snd init)
| reachable_trigger (a : Action) (w : Window) :
    reachable lib w -> reachable lib (snd (trigger lib a w)).

(** The content unit of a PDF page, as the description of [load_pdf] words
    it: the placeholder when extraction raises, returns [None] or yields
    only whitespace, and the extracted text otherwise. *)
Definition unit_of_page_spec (page : PageObject) : str :=
  match extract_text page with
  | Raise _ => lit "[Empty page]"
  | Ok None => lit "[Empty page]"
  | Ok (Some text) =>
      match strip text with
      | [] => lit "[Empty page]"
      | _ :: _ => text
      end
  end.

(** How a [for] loop over the iterator ends when its body never raises. *)
Fixpoint iter_end {A : Type} (it : iter A) : result unit :=
  match it with
  | Stop => Ok tt
  | Yield _ rest => iter_end rest
  | Throw e => Raise e
  end.

(** The content units of the pages a PDF reader yields. *)
Fixpoint pdf_units (it : iter PageObject) : list str :=
  match it with
  | Yield page rest => unit_of_page_spec page :: pdf_units rest
  | Stop | Throw _ => []
  end.

(** The content units of the items an EPUB book yields, up to the first item
    that the HTML normaliser rejects, and how the loop over them ends. *)
Fixpoint epub_units (lib : Libraries) (it : iter EpubItem) : list str :=
  match it with
  | Yield item rest =>
      match prettify lib (get_content item) with
      | Ok clean_html => clean_html :: epub_units lib rest
      | Raise _ => []
      end
  | Stop | Throw _ => []
  end.

Fixpoint epub_end (lib : Libraries) (it : iter EpubItem) : result unit :=
  match it with
  | Stop => Ok tt
  | Yield item rest =>
      match prettify lib (get_content item) with
      | Ok _ => epub_end lib rest
      | Raise e => Raise e
      end
  | Throw e => Raise e
  end.

(** The extension [open_file] dispatches on. *)
Definition extension (path : str) : str := lower (snd (splitext path)).

(** Every evaluation of [pages[i]] among the logged events was made at the
    cursor of the window, and the window has pages. *)
Definition subscripts_guarded (evs : list Event) (w : Window) : Prop :=
  forall i, In (Subscript i) evs -> pages w <> [] /\ i = current_index w.

(** The log entry of the file dialog that [open_file] opens first. *)
Definition file_dialog_shown : Event :=
  getOpenFileName (lit "Open document") empty_str dialog_filter.

Definition unsupported_shown : Event :=
  warning (lit "Unsupported file") (lit "Only PDF and EPUB are supported.").

Definition failure_shown (e : exn) : Event :=
  critical (lit "Error") (lit "Failed to open file:" ++ newline ++ str_of_exn e).

(** What [open_file] does once the extractor has run: after a normal return
    it records path and title, puts the cursor on the first unit and
    redraws; after an exception it shows the error and returns. *)
Definition after_load (path : str) (loaded : result unit * Window) : result unit * Window :=
  match loaded with
  | (Ok _, w) =>
      _update_view
        (set_current_index 0
           (set_current_book_title (basename path)
              (set_current_book_path (Some path) w)))
  | (Raise e, w) => (Ok tt, set_events (events w ++ [failure_shown e]) w)
  end.

(** What a navigation command may do: move the cursor and log calls.  On a
    window without pages it does nothing; on a window whose cursor
    designates a page it returns normally with the cursor on a page. *)
Definition navigation_outcome (w : Window) (out : result unit * Window) : Prop :=
  exists r evs i,
    out = (r, set_events (events w ++ evs) (set_current_index i w))
    /\ (pages w = [] -> r = Ok tt /\ evs = [] /\ i = current_index w)
    /\ (cursor_in_range w -> r = Ok tt /\ 0 <= i <= len (pages w) - 1)
    /\ subscripts_guarded evs (set_current_index i w).

(** The font size an action leaves, from the one it finds. *)
Definition font_size_after (a : Action) (size : Z) : Z :=
  match a with
  | ZoomIn => Z.min (size + 1) 40
  | ZoomOut => Z.max (size - 1) 8
  | Open _ | Prev | Next | GoTo _ | About => size
  end.

(** ** Further properties of the window *)

(** The window can be redrawn: it has no pages, or its cursor designates
    one of them. *)
Definition drawable (w : Window) : Prop :=
  pages w = [] \/ cursor_in_range w.

(** The call that shows a unit: [setHtml] for an EPUB, [setPlainText]
    otherwise. *)
Definition shown (w : Window) (content : str) : Event :=
  if str_option_eqb (current_book_type w) (Some (lit "epub"))
  then setHtml content
  else setPlainText content.


(** Title and path go together: the title is the last component of the
    path, and [Untitled] while there is no path. *)
Definition title_of_path (w : Window) : Prop :=
  current_book_title w
  = match current_book_path w with
    | Some path => basename path
    | None => lit "Untitled"
    end.

Definition not_blank (content : str) : Prop :=
  content <> [] /\ strip content <> [].

(** Pages come from a loader: there are none while no book type is set, and
    those of a PDF are never blank. *)
Definition pages_of_type (w : Window) : Prop :=
  match current_book_type w with
  | None => pages w = []
  | Some type =>
      (type = lit "pdf" /\ Forall not_blank (pages w)) \/ type = lit "epub"
  end.

(** The iterator that yields the elements of a list and stops. *)
Fixpoint iter_of_list {A : Type} (l : list A) : iter A :=
  match l with
  | [] => Stop
  | a :: l' => Yield a (iter_of_list l')
  end.

(** No document of the machine fails part way: when a library raises, it
    does so before the loop has appended a unit. *)
Definition fails_before_first_unit (lib : Libraries) : Prop :=
  forall path,
    match PdfReader lib path with
    | Ok reader_pages => iter_end reader_pages = Ok tt \/ pdf_units reader_pages = []
    | Raise _ => True
    end
    /\ match read_epub lib path with
       | Ok items => epub_end lib items = Ok tt \/ epub_units lib items = []
       | Raise _ => True
       end.

(** The extractor [open_file] runs for a path, if any. *)
Definition extractor (lib : Libraries) (path : str) : option (M Window unit) :=
  if str_eqb (extension path) (lit ".pdf") then Some (load_pdf lib path)
  else if str_eqb (extension path) (lit ".epub") then Some (load_epub lib path)
  else None.

(** A machine on which every path opens as the same PDF document and no
    file is an EPUB. *)
Definition one_book_lib (reader_pages : iter PageObject) : Libraries :=
  {| PdfReader := fun _ => Ok reader_pages;
     read_epub := fun _ => Raise (Error (lit "File is not a zip file"));
     prettify := fun raw_html => Ok raw_html |}.

(** ** Sample documents

    A machine with four files: a PDF without pages, a PDF of four pages, a
    file that is not a PDF under a [.pdf] name, and an EPUB whose second
    item the HTML normaliser rejects. *)

Module Sample.

Definition four_pages : iter PageObject :=
  Yield {| extract_text := Ok (Some (lit " Chapter 1 ")) |}
 (Yield {| extract_text := Ok (Some (lit "  ")) |}
 (Yield {| extract_text := Raise (Error (lit "unsupported font")) |}
 (Yield {| extract_text := Ok None |} Stop))).

Definition lib : Libraries :=
  {| PdfReader := fun path =>
       if str_eqb path (lit "/books/blank.pdf") then Ok Stop
       else if str_eqb path (lit "/books/Novel.PDF") then Ok four_pages
       else Raise (Error (lit "EOF marker not found"));
     read_epub := fun path =>
       if str_eqb path (lit "/books/broken.epub") then
         Ok (Yield {| get_content := lit "<p>one</p>" |}
            (Yield {| get_content := lit "<p>two" |}
            (Yield {| get_content := lit "<p>three</p>" |} Stop)))
       else if str_eqb path (lit "/books/empty.epub") then Ok Stop
       else Raise (Error (lit "File is not a zip file"));
     prettify := fun raw_html =>
       if str_eqb raw_html (lit "<p>two") then
         Raise (Error (lit "maximum recursion depth exceeded"))
       else Ok raw_html |}.

(** The window after opening the four-page PDF from a fresh start. *)
Definition novel : Window := snd (open_file lib (lit "/books/Novel.PDF") fresh).

(** The same window with the cursor on its last page. *)
Definition novel_last_page : Window :=
  snd (go_to_page_dialog (Accepted 4) novel).

End Sample.

(** * Theorems *)

(** ** Paths, strings and the dialog's filters on samples *)

Example splitext_upper_case :
  splitext (lit "/home/u/Book.One.PDF") = (lit "/home/u/Book.One", lit ".PDF")
  /\ extension (lit "/home/u/Book.One.PDF") = lit ".pdf".
Proof. split; reflexivity. Qed.

Example splitext_leading_dot :
  splitext (lit "/home/u.d/.pdf") = (lit "/home/u.d/.pdf", empty_str).
Proof. reflexivity. Qed.

Example splitext_dot_in_directory :
  splitext (lit "a/b.c/readme") = (lit "a/b.c/readme", empty_str).
Proof. reflexivity. Qed.

Example basename_of_path : basename (lit "/books/Novel.PDF") = lit "Novel.PDF".
Proof. reflexivity. Qed.

Example str_of_int_samples :
  str_of_int 0 = lit "0" /\ str_of_int 12 = lit "12" /\ str_of_int (-3) = lit "-3".
Proof. repeat split; reflexivity. Qed.

Example strip_sample : strip (lit "  a b  ") = lit "a b".
Proof. reflexivity. Qed.

Example getitem_samples :
  getitem [lit "a"; lit "b"] 1 = Ok (lit "b")
  /\ getitem [lit "a"; lit "b"] (-1) = Ok (lit "b")
  /\ getitem [lit "a"; lit "b"] 2 = Raise IndexError
  /\ getitem [lit "a"; lit "b"] (-3) = Raise IndexError.
Proof. repeat split; reflexivity. Qed.

Example getInt_samples :
  QInputDialog_getInt 2 1 4 (Accepted 99) = (4, true)
  /\ QInputDialog_getInt 2 1 4 (Accepted 3) = (3, true)
  /\ QInputDialog_getInt 2 1 4 Cancelled = (2, false).
Proof. repeat split; reflexivity. Qed.

Example matches_samples :
  FileDialog.matches (lit "*.pdf") (lit "A.PDF") = true
  /\ FileDialog.matches (lit "*.pdf") (lit "notes.txt") = false
  /\ FileDialog.matches (lit "*.*") (lit "README") = false.
Proof. repeat split; vm_compute; reflexivity. Qed.

(** The status bar after the four-page document is opened. *)
Example status_after_open :
  In (showMessage (lit "Novel.PDF  |  Page 1 / 4")) (events Sample.novel).
Proof. vm_compute. do 4 right. left. reflexivity. Qed.

(** ** The monad and the redraw *)

(** Runs a method on a window: the monad's operations and the record's
    setters are unfolded; literals, list operations and library calls are
    left as they are. *)
Ltac run :=
  cbv beta iota zeta delta
    [bind ret get modify eval raise try_except call pages_append pages_getitem
     fst snd
     set_events set_pages set_current_index set_current_font_size
     set_current_book_type set_current_book_path set_current_book_title
     events pages current_index current_font_size
     current_book_type current_book_path current_book_title].

Ltac run_in H :=
  cbv beta iota zeta delta
    [bind ret get modify eval raise try_except call pages_append pages_getitem
     fst snd
     set_events set_pages set_current_index set_current_font_size
     set_current_book_type set_current_book_path set_current_book_title
     events pages current_index current_font_size
     current_book_type current_book_path current_book_title] in H.

(** The status bar update only logs one message. *)
Lemma update_statusbar_run (w : Window) :
  exists info, _update_statusbar w = (Ok tt, set_events (events w ++ [showMessage info]) w).
Proof. destruct w. unfold _update_statusbar. run. eauto. Qed.

Lemma getitem_raises {A : Type} (l : list A) (i : Z) (e : exn) :
  getitem l i = Raise e -> e = IndexError /\ ~ (0 <= i <= len l - 1).
Proof.
  unfold getitem. intros H.
  destruct (i <? 0) eqn:Hneg.
  - split; [|lia]. destruct (_ && _); [destruct (nth_error _ _)|]; congruence.
  - destruct ((0 <=? i) && (i <? len l)) eqn:Hb.
    + destruct (nth_error l (Z.to_nat i)) eqn:Hn; [congruence|].
      apply nth_error_None in Hn. apply andb_true_iff in Hb. unfold len in *.
      split; [congruence|lia].
    + split; [congruence|]. apply andb_false_iff in Hb. lia.
Qed.

(** A redraw changes nothing but the log; it raises only when it evaluates
    [pages[current_index]] with the cursor out of range, and it evaluates
    that subscript exactly when there are pages. *)
Lemma update_view_run (w : Window) :
  exists r evs,
    _update_view w = (r, set_events (events w ++ evs) w)
    /\ (pages w = [] -> r = Ok tt /\ forall i, ~ In (Subscript i) evs)
    /\ (forall i, In (Subscript i) evs -> pages w <> [] /\ i = current_index w)
    /\ (cursor_in_range w -> r = Ok tt)
    /\ (r <> Ok tt -> r = Raise IndexError).
Proof.
  destruct w as [ty pa ti pg ci fs ev].
  unfold _update_view, _update_statusbar, cursor_in_range. run.
  destruct pg as [|p ps].
  - eexists; eexists; split; [rewrite <- !app_assoc; reflexivity|].
    cbn [In app]. repeat split; try congruence; intros; intuition congruence.
  - destruct (getitem (p :: ps) ci) as [content|e] eqn:Hg.
    + destruct (str_option_eqb _ _);
        (eexists; eexists; split; [rewrite <- !app_assoc; reflexivity|]);
        cbn [In app]; repeat split; try congruence;
        intros; intuition (try congruence).
    + apply getitem_raises in Hg. destruct Hg as [-> Hout].
      eexists; eexists; split; [reflexivity|].
      cbn [In app]. repeat split; try congruence;
        intros; intuition (try congruence).
Qed.

Ltac redraw :=
  match goal with
  | |- context [_update_view ?x] =>
      let r := fresh "r" in
      let evs := fresh "evs" in
      let E := fresh "E" in
      let Hempty := fresh "Hempty" in
      let Hsub := fresh "Hsub" in
      let Hok := fresh "Hok" in
      let Hexn := fresh "Hexn" in
      destruct (update_view_run x) as (r & evs & E & Hempty & Hsub & Hok & Hexn);
      rewrite E; unfold cursor_in_range in Hok;
      run; run_in Hempty; run_in Hsub; run_in Hok
  end.

(** ** Zoom *)

Lemma zoom_in_run (w : Window) :
  exists r evs,
    zoom_in w = (r, set_events (events w ++ evs)
                      (set_current_font_size (Z.min (current_font_size w + 1) 40) w))
    /\ subscripts_guarded evs w.
Proof.
  destruct w as [ty pa ti pg ci fs ev]. unfold zoom_in, subscripts_guarded. run.
  destruct (Z.gtb_spec (fs + 1) 40);
    [rewrite Z.min_r by lia | rewrite Z.min_l by lia];
    run; redraw; exists r, evs; split; trivial.
Qed.

Lemma zoom_out_run (w : Window) :
  exists r evs,
    zoom_out w = (r, set_events (events w ++ evs)
                       (set_current_font_size (Z.max (current_font_size w - 1) 8) w))
    /\ subscripts_guarded evs w.
Proof.
  destruct w as [ty pa ti pg ci fs ev]. unfold zoom_out, subscripts_guarded. run.
  destruct (Z.ltb_spec (fs - 1) 8);
    [rewrite Z.max_r by lia | rewrite Z.max_l by lia];
    run; redraw; exists r, evs; split; trivial.
Qed.

(** ** Navigation *)

Lemma go_prev_run (w : Window) : navigation_outcome w (go_prev w).
Proof.
  destruct w as [ty pa ti pg ci fs ev].
  unfold navigation_outcome, go_prev, cursor_in_range, subscripts_guarded. run.
  destruct pg as [|p ps].
  - exists (Ok tt), [], ci. rewrite app_nil_r.
    repeat split; intros; try lia; contradiction.
  - destruct (Z.gtb_spec ci 0); run.
    + redraw. exists r, evs, (ci - 1).
      repeat split; try congruence; intros; try (apply Hok); try lia;
        apply Hsub; assumption.
    + exists (Ok tt), [], ci. rewrite app_nil_r.
      repeat split; try congruence; intros; try lia; contradiction.
Qed.

Lemma go_next_run (w : Window) : navigation_outcome w (go_next w).
Proof.
  destruct w as [ty pa ti pg ci fs ev].
  unfold navigation_outcome, go_next, cursor_in_range, subscripts_guarded. run.
  destruct pg as [|p ps].
  - exists (Ok tt), [], ci. rewrite app_nil_r.
    repeat split; intros; try lia; contradiction.
  - destruct (Z.ltb_spec ci (len (p :: ps) - 1)); run.
    + redraw. exists r, evs, (ci + 1).
      repeat split; try congruence; intros; try (apply Hok); try lia;
        apply Hsub; assumption.
    + exists (Ok tt), [], ci. rewrite app_nil_r.
      repeat split; try congruence; intros; try lia; contradiction.
Qed.

Lemma len_cons_pos {A : Type} (a : A) (l : list A) : 1 <= len (a :: l).
Proof. unfold len. cbn [List.length]. lia. Qed.

Lemma go_to_page_dialog_run (reply : IntReply) (w : Window) :
  navigation_outcome w (go_to_page_dialog reply w).
Proof.
  destruct w as [ty pa ti pg ci fs ev].
  unfold navigation_outcome, go_to_page_dialog, cursor_in_range, subscripts_guarded. run.
  destruct pg as [|p ps].
  - exists (Ok tt), [], ci. rewrite app_nil_r.
    repeat split; intros; try lia; contradiction.
  - pose proof (len_cons_pos p ps) as Hlen.
    destruct reply as [typed|]; unfold QInputDialog_getInt; run.
    + redraw. eexists r, _, (Z.max 1 (Z.min (len (p :: ps)) typed) - 1).
      rewrite <- app_assoc.
      repeat split; try congruence; intros; try (apply Hok); try lia;
        match goal with H : In _ _ |- _ => destruct H as [H|H]; [discriminate|] end;
        apply Hsub; assumption.
    + eexists (Ok tt), _, ci.
      repeat split; try congruence; intros; try lia;
        match goal with H : In _ _ |- _ => destruct H as [H|[]]; discriminate end.
Qed.

(** ** Loading *)

(** One turn of the loop of [load_pdf] appends the unit of the page and
    never raises. *)
Lemma load_pdf_page_run (page : PageObject) (w : Window) :
  load_pdf_page page w = (Ok tt, set_pages (pages w ++ [unit_of_page_spec page]) w).
Proof.
  destruct w as [ty pa ti pg ci fs ev], page as [[[text|]|e]];
    unfold load_pdf_page, unit_of_page_spec; cbn [extract_text]; run;
    try reflexivity.
  destruct text as [|c text]; cbn [truthy].
  - reflexivity.
  - destruct (strip (c :: text)); reflexivity.
Qed.

Lemma load_pdf_loop (it : iter PageObject) (w : Window) :
  for_each it load_pdf_page w = (iter_end it, set_pages (pages w ++ pdf_units it) w).
Proof.
  revert w. induction it as [|page rest IH|e]; intros w; cbn [for_each iter_end pdf_units].
  - destruct w; run. rewrite app_nil_r. reflexivity.
  - unfold bind. rewrite load_pdf_page_run, IH.
    destruct w; run. rewrite <- app_assoc. reflexivity.
  - destruct w; run. rewrite app_nil_r. reflexivity.
Qed.

(** [load_pdf] sets the book type, empties the pages and then appends one
    unit per page the reader yields; it raises when the reader cannot be
    built or when the iteration over its pages raises. *)
Lemma load_pdf_run (lib : Libraries) (path : str) (w : Window) :
  load_pdf lib path w =
  match PdfReader lib path with
  | Ok it => (iter_end it,
              set_pages (pdf_units it) (set_current_book_type (Some (lit "pdf")) w))
  | Raise e => (Raise e, set_pages [] (set_current_book_type (Some (lit "pdf")) w))
  end.
Proof.
  unfold load_pdf. run. destruct (PdfReader lib path) as [it|e].
  - rewrite load_pdf_loop. destruct w; reflexivity.
  - destruct w; reflexivity.
Qed.

Lemma load_epub_loop (lib : Libraries) (it : iter EpubItem) (w : Window) :
  for_each it (load_epub_item lib) w =
  (epub_end lib it, set_pages (pages w ++ epub_units lib it) w).
Proof.
  revert w. induction it as [|item rest IH|e]; intros w; cbn [for_each epub_end epub_units].
  - destruct w; run. rewrite app_nil_r. reflexivity.
  - unfold bind, load_epub_item. run.
    destruct (prettify lib (get_content item)) as [clean_html|e].
    + rewrite IH. destruct w; run. rewrite <- app_assoc. reflexivity.
    + destruct w; run. rewrite app_nil_r. reflexivity.
  - destruct w; run. rewrite app_nil_r. reflexivity.
Qed.

(** [load_epub] sets the book type, empties the pages and appends the
    normalised items; when the loop ends normally without any item it
    appends the placeholder. *)
Lemma load_epub_run (lib : Libraries) (path : str) (w : Window) :
  load_epub lib path w =
  match read_epub lib path with
  | Ok it =>
      match epub_end lib it with
      | Ok _ =>
          (Ok tt,
           set_pages (match epub_units lib it with
                      | [] => [lit "<h3>No readable content found.</h3>"]
                      | _ :: _ => epub_units lib it
                      end)
                     (set_current_book_type (Some (lit "epub")) w))
      | Raise e =>
          (Raise e,
           set_pages (epub_units lib it) (set_current_book_type (Some (lit "epub")) w))
      end
  | Raise e => (Raise e, set_pages [] (set_current_book_type (Some (lit "epub")) w))
  end.
Proof.
  unfold load_epub. run. destruct (read_epub lib path) as [it|e].
  - rewrite load_epub_loop. destruct w; run.
    destruct (epub_end lib it) as [[]|e]; [|reflexivity].
    destruct (epub_units lib it); reflexivity.
  - destruct w; reflexivity.
Qed.

(** ** Opening a file *)

Lemma str_eqb_eq (a b : str) : str_eqb a b = true <-> a = b.
Proof.
  unfold str_eqb. destruct (list_eq_dec N.eq_dec a b); split; congruence.
Qed.

Lemma str_eqb_neq (a b : str) : str_eqb a b = false <-> a <> b.
Proof.
  unfold str_eqb. destruct (list_eq_dec N.eq_dec a b); split; congruence.
Qed.

(** [open_file] shows the file dialog; without a selection it returns; with
    one it dispatches on the extension. *)
Lemma open_file_run (lib : Libraries) (path : str) (w : Window) :
  open_file lib path w =
  let shown := set_events (events w ++ [file_dialog_shown]) w in
  match path with
  | [] => (Ok tt, shown)
  | _ :: _ =>
      if str_eqb (extension path) (lit ".pdf") then
        after_load path (load_pdf lib path shown)
      else if str_eqb (extension path) (lit ".epub") then
        after_load path (load_epub lib path shown)
      else (Ok tt, set_events (events shown ++ [unsupported_shown]) shown)
  end.
Proof.
  unfold open_file, extension, after_load. run.
  destruct path as [|c path']; cbn [truthy negb]; [reflexivity|].
  destruct (str_eqb _ (lit ".pdf")).
  - run. destruct (load_pdf lib _ _) as [[[]|e] w1]; reflexivity.
  - destruct (str_eqb _ (lit ".epub")).
    + run. destruct (load_epub lib _ _) as [[[]|e] w1]; reflexivity.
    + reflexivity.
Qed.

Ltac not_a_subscript :=
  unfold file_dialog_shown, unsupported_shown, failure_shown in *;
  repeat match goal with
         | H : In _ (_ :: _) |- _ => destruct H as [H|H]; [discriminate|]
         | H : In _ (_ ++ _) |- _ => apply in_app_or in H; destruct H as [H|H]
         | H : In _ [] |- _ => destruct H
         end.

(** Whatever the file and the libraries, [open_file] appends to the log,
    keeps the font size, and evaluates [pages[current_index]] only on a
    window that has pages. *)
Lemma open_file_effects (lib : Libraries) (path : str) (w : Window) :
  exists r evs w',
    open_file lib path w = (r, w')
    /\ events w' = events w ++ evs
    /\ current_font_size w' = current_font_size w
    /\ subscripts_guarded evs w'.
Proof.
  rewrite open_file_run. destruct w as [ty pa ti pg ci fs ev].
  unfold subscripts_guarded. cbv zeta.
  destruct path as [|c path'].
  { eexists _, _, _. split; [reflexivity|]. run.
    split; [reflexivity|split; [reflexivity|]]; intros i Hi; not_a_subscript. }
  destruct (str_eqb _ (lit ".pdf")); [|destruct (str_eqb _ (lit ".epub"))].
  - rewrite load_pdf_run.
    destruct (PdfReader lib _) as [it|e]; [destruct (iter_end it) as [[]|e]|];
      unfold after_load; run.
    + redraw. eexists _, _, _. split; [reflexivity|]. run.
      rewrite <- app_assoc.
      split; [reflexivity|split; [reflexivity|]].
      intros i Hi; not_a_subscript; apply Hsub; assumption.
    + eexists _, _, _. split; [reflexivity|]. run. rewrite <- app_assoc.
      split; [reflexivity|split; [reflexivity|]]; intros i Hi; not_a_subscript.
    + eexists _, _, _. split; [reflexivity|]. run. rewrite <- app_assoc.
      split; [reflexivity|split; [reflexivity|]]; intros i Hi; not_a_subscript.
  - rewrite load_epub_run.
    destruct (read_epub lib _) as [it|e]; [destruct (epub_end lib it) as [[]|e]|];
      unfold after_load; run.
    + redraw. eexists _, _, _. split; [reflexivity|]. run.
      rewrite <- app_assoc.
      split; [reflexivity|split; [reflexivity|]].
      intros i Hi; not_a_subscript; apply Hsub; assumption.
    + eexists _, _, _. split; [reflexivity|]. run. rewrite <- app_assoc.
      split; [reflexivity|split; [reflexivity|]]; intros i Hi; not_a_subscript.
    + eexists _, _, _. split; [reflexivity|]. run. rewrite <- app_assoc.
      split; [reflexivity|split; [reflexivity|]]; intros i Hi; not_a_subscript.
  - eexists _, _, _. split; [reflexivity|]. run. rewrite <- app_assoc.
    split; [reflexivity|split; [reflexivity|]]; intros i Hi; not_a_subscript.
Qed.

(** ** Every action *)

Lemma navigation_effects (a : Action) (w : Window) (out : result unit * Window) :
  navigation_outcome w out ->
  exists r evs w',
    out = (r, w')
    /\ events w' = events w ++ evs
    /\ current_font_size w' = current_font_size w
    /\ subscripts_guarded evs w'.
Proof.
  intros (r & evs & i & -> & _ & _ & Hg).
  exists r, evs, (set_events (events w ++ evs) (set_current_index i w)).
  split; [reflexivity|]. split; [reflexivity|]. split; [reflexivity|exact Hg].
Qed.

(** Every action appends to the log, leaves the font size that
    [font_size_after] tells, and evaluates [pages[current_index]] only on a
    window that has pages. *)
Lemma trigger_effects (lib : Libraries) (a : Action) (w : Window) :
  exists r evs w',
    trigger lib a w = (r, w')
    /\ events w' = events w ++ evs
    /\ current_font_size w' = font_size_after a (current_font_size w)
    /\ subscripts_guarded evs w'.
Proof.
  destruct a as [path| | |reply| | |]; cbn [trigger font_size_after].
  - apply open_file_effects.
  - apply (navigation_effects Prev), go_prev_run.
  - apply (navigation_effects Next), go_next_run.
  - apply (navigation_effects (GoTo reply)), go_to_page_dialog_run.
  - destruct (zoom_in_run w) as (r & evs & E & Hg). rewrite E.
    eexists _, _, _. split; [reflexivity|].
    split; [reflexivity|]. split; [reflexivity|exact Hg].
  - destruct (zoom_out_run w) as (r & evs & E & Hg). rewrite E.
    eexists _, _, _. split; [reflexivity|].
    split; [reflexivity|]. split; [reflexivity|exact Hg].
  - unfold show_about. destruct w. run.
    eexists _, _, _. split; [reflexivity|]. run.
    split; [reflexivity|split; [reflexivity|]].
    intros i Hi. destruct Hi as [Hi|[]]. discriminate.
Qed.

(** * The claims *)

(** C4: the font size stays within [8, 40].  [__init__] sets it to 12;
    [zoom_in] adds 1 and caps the result at 40, [zoom_out] subtracts 1 and
    keeps the result at 8 or above; every action triggered on a window whose
    font size is within the bounds leaves it within the bounds, and so it is
    on every window the program reaches. *)
Theorem font_size_within_bounds (lib : Libraries) (a : Action) (w : Window)
    (Hfont : font_in_range w) :
  font_in_range (snd (trigger lib a w))
  /\ current_font_size (snd (zoom_in w)) = Z.min (current_font_size w + 1) 40
  /\ current_font_size (snd (zoom_out w)) = Z.max (current_font_size w - 1) 8
  /\ font_in_range (snd init)
  /\ (forall w', reachable lib w' -> font_in_range w').
Proof.
  assert (Hstep : forall a w, font_in_range w -> font_in_range (snd (trigger lib a w))).
  { clear. intros a w Hfont.
    destruct (trigger_effects lib a w) as (r & evs & w' & E & _ & Hf & _).
    rewrite E. unfold font_in_range in *. cbn [snd]. rewrite Hf.
    destruct a; cbn [font_size_after]; lia. }
  assert (Hinit : font_in_range (snd init)).
  { unfold font_in_range. cbv. split; discriminate. }
  split; [apply Hstep; assumption|].
  split; [destruct (zoom_in_run w) as (r & evs & E & _); rewrite E; reflexivity|].
  split; [destruct (zoom_out_run w) as (r & evs & E & _); rewrite E; reflexivity|].
  split; [assumption|].
  intros w' Hreach. induction Hreach; [assumption|apply Hstep; assumption].
Qed.

Lemma font_size_within_bounds_witness :
  font_in_range Sample.novel
  /\ font_in_range (snd (trigger Sample.lib ZoomIn Sample.novel)).
Proof.
  assert (H : font_in_range Sample.novel) by (cbv; split; discriminate).
  split; [exact H|].
  exact (proj1 (font_size_within_bounds Sample.lib ZoomIn Sample.novel H)).
Defined.

(** C7: [zoom_in] and [zoom_out] change the font size only: on every window
    the book type, path and title, the pages and the cursor are the same
    after either of them as before. *)
Theorem zoom_changes_font_size_only (w : Window) :
  same_document w (snd (zoom_in w)) /\ same_document w (snd (zoom_out w)).
Proof.
  destruct (zoom_in_run w) as (r & evs & E & _).
  destruct (zoom_out_run w) as (r' & evs' & E' & _).
  rewrite E, E'. split; repeat split.
Qed.

(** C6: when the selected path has an extension that, lowercased, is neither
    [.pdf] nor [.epub], [open_file] shows the warning box after the file
    dialog and returns; the six fields of the reader state are the ones it
    found. *)
Theorem open_file_unsupported_extension (lib : Libraries) (path : str) (w : Window)
    (Hselected : path <> [])
    (Hpdf : extension path <> lit ".pdf")
    (Hepub : extension path <> lit ".epub") :
  open_file lib path w
  = (Ok tt, set_events (events w ++ [file_dialog_shown; unsupported_shown]) w)
  /\ same_fields w (snd (open_file lib path w)).
Proof.
  rewrite open_file_run. cbv zeta.
  destruct path as [|c path']; [congruence|].
  apply str_eqb_neq in Hpdf, Hepub. rewrite Hpdf, Hepub.
  destruct w. run. rewrite <- app_assoc. split; [reflexivity|repeat split].
Qed.

Lemma open_file_unsupported_extension_witness :
  same_fields Sample.novel
    (snd (open_file Sample.lib (lit "/books/notes.txt") Sample.novel)).
Proof.
  refine (proj2 (open_file_unsupported_extension Sample.lib (lit "/books/notes.txt")
                   Sample.novel _ _ _)).
  - discriminate.
  - vm_compute. discriminate.
  - vm_compute. discriminate.
Defined.

Lemma navigation_without_pages (w : Window) (out : result unit * Window) :
  pages w = [] -> navigation_outcome w out -> out = (Ok tt, w).
Proof.
  intros Hnone (r & evs & i & -> & Hempty & _).
  destruct (Hempty Hnone) as (-> & -> & ->).
  destruct w. run. rewrite app_nil_r. reflexivity.
Qed.

(** C10: on a window without pages [go_prev], [go_next] and
    [go_to_page_dialog] return at once and the window, log included, is the
    one they found; [_update_view] shows the no-document text without
    evaluating [pages[current_index]].  Whatever the action and the window,
    that subscript is evaluated only at the cursor of a window that has
    pages. *)
Theorem no_pages_no_subscript (w : Window) (Hnone : pages w = []) :
  go_prev w = (Ok tt, w)
  /\ go_next w = (Ok tt, w)
  /\ (forall reply, go_to_page_dialog reply w = (Ok tt, w))
  /\ (exists evs,
        _update_view w = (Ok tt, set_events (events w ++ evs) w)
        /\ In (setPlainText (lit "No document loaded.")) evs
        /\ forall i, ~ In (Subscript i) evs)
  /\ (forall lib a w0, exists evs,
        events (snd (trigger lib a w0)) = events w0 ++ evs
        /\ forall i, In (Subscript i) evs ->
             pages (snd (trigger lib a w0)) <> []
             /\ i = current_index (snd (trigger lib a w0))).
Proof.
  split; [apply navigation_without_pages, go_prev_run; assumption|].
  split; [apply navigation_without_pages, go_next_run; assumption|].
  split; [intros reply; apply navigation_without_pages, go_to_page_dialog_run; assumption|].
  split.
  - destruct w as [ty pa ti pg ci fs ev]. cbn [pages] in Hnone. subst pg.
    unfold _update_view, _update_statusbar. run.
    eexists. split; [rewrite <- !app_assoc; reflexivity|].
    split; [left; reflexivity|].
    intros i Hi. not_a_subscript.
  - intros lib a w0.
    destruct (trigger_effects lib a w0) as (r & evs & w' & E & Hev & _ & Hg).
    rewrite E. exists evs. split; [exact Hev|exact Hg].
Qed.

Lemma no_pages_no_subscript_witness :
  pages fresh = [] /\ go_next fresh = (Ok tt, fresh).
Proof.
  split; [reflexivity|].
  exact (proj1 (proj2 (no_pages_no_subscript fresh eq_refl))).
Defined.

(** C9: the pages [load_pdf] leaves are the units of the pages the reader
    yields, one per page in order; the loop body appends for each page the
    unit that [unit_of_page_spec] describes (the placeholder when extraction
    raises, returns [None] or yields only whitespace, the extracted text
    otherwise); no unit is empty or made of whitespace only. *)
Theorem load_pdf_units_not_blank (lib : Libraries) (path : str) (w : Window) :
  pages (snd (load_pdf lib path w))
  = match PdfReader lib path with
    | Ok reader_pages => pdf_units reader_pages
    | Raise _ => []
    end
  /\ (forall page w0,
        load_pdf_page page w0
        = (Ok tt, set_pages (pages w0 ++ [unit_of_page_spec page]) w0))
  /\ Forall (fun content => content <> [] /\ strip content <> [])
            (pages (snd (load_pdf lib path w))).
Proof.
  assert (Hunit : forall page,
             unit_of_page_spec page <> [] /\ strip (unit_of_page_spec page) <> []).
  { intros [[[text|]|e]]; unfold unit_of_page_spec; cbn [extract_text];
      try (split; discriminate).
    destruct (strip text) as [|c s] eqn:Hs; [split; discriminate|].
    split; [|congruence]. intros ->. discriminate. }
  assert (Hunits : forall it,
             Forall (fun content => content <> [] /\ strip content <> []) (pdf_units it)).
  { induction it as [|page rest IH|e]; cbn [pdf_units]; constructor; auto. }
  rewrite load_pdf_run.
  destruct (PdfReader lib path) as [it|e]; cbn [snd pages set_pages].
  - split; [reflexivity|]. split; [apply load_pdf_page_run|apply Hunits].
  - split; [reflexivity|]. split; [apply load_pdf_page_run|constructor].
Qed.

(** C5: when a path is selected, its extension is supported and the
    extractor returns normally, [open_file] returns normally with the cursor
    at 0 and with pages holding exactly the units extracted from the new
    document (for an EPUB without items, the placeholder), whatever the
    pages were before. *)
Theorem open_file_replaces_pages (lib : Libraries) (path : str) (w : Window)
    (Hselected : path <> []) :
  (extension path = lit ".pdf" ->
   fst (load_pdf lib path w) = Ok tt ->
   exists reader_pages,
     PdfReader lib path = Ok reader_pages
     /\ fst (open_file lib path w) = Ok tt
     /\ current_index (snd (open_file lib path w)) = 0
     /\ pages (snd (open_file lib path w)) = pdf_units reader_pages)
  /\ (extension path = lit ".epub" ->
      fst (load_epub lib path w) = Ok tt ->
      exists items,
        read_epub lib path = Ok items
        /\ fst (open_file lib path w) = Ok tt
        /\ current_index (snd (open_file lib path w)) = 0
        /\ pages (snd (open_file lib path w))
           = match epub_units lib items with
             | [] => [lit "<h3>No readable content found.</h3>"]
             | _ :: _ => epub_units lib items
             end).
Proof.
  assert (Hfirst : forall us : list str, us = [] \/ 0 <= 0 <= len us - 1).
  { intros [|u us]; [left; reflexivity|right]. pose proof (len_cons_pos u us). lia. }
  rewrite open_file_run. cbv zeta.
  destruct path as [|c path']; [congruence|]. split.
  - intros Hext. rewrite Hext. change (str_eqb (lit ".pdf") (lit ".pdf")) with true.
    cbv iota. rewrite !load_pdf_run.
    destruct (PdfReader lib (c :: path')) as [it|e]; cbn [fst]; [|discriminate].
    intros Hend. rewrite Hend. exists it. split; [reflexivity|].
    destruct w as [ty pa ti pg ci fs ev]. unfold after_load. run. redraw.
    split; [|split; reflexivity].
    destruct (Hfirst (pdf_units it)) as [Hu|Hu]; [apply Hempty|apply Hok]; assumption.
  - intros Hext. rewrite Hext. change (str_eqb (lit ".epub") (lit ".pdf")) with false.
    change (str_eqb (lit ".epub") (lit ".epub")) with true.
    cbv iota. rewrite !load_epub_run.
    destruct (read_epub lib (c :: path')) as [it|e]; cbn [fst]; [|discriminate].
    destruct (epub_end lib it) as [[]|e]; cbn [fst]; [|discriminate].
    intros _. exists it. split; [reflexivity|].
    destruct w as [ty pa ti pg ci fs ev]. unfold after_load. run. redraw.
    split; [|split; reflexivity].
    apply Hok. destruct (epub_units lib it) as [|u us].
    + cbv. split; discriminate.
    + pose proof (len_cons_pos u us). lia.
Qed.

Lemma open_file_replaces_pages_witness :
  exists reader_pages,
    PdfReader Sample.lib (lit "/books/Novel.PDF") = Ok reader_pages
    /\ fst (open_file Sample.lib (lit "/books/Novel.PDF") Sample.novel_last_page) = Ok tt
    /\ current_index (snd (open_file Sample.lib (lit "/books/Novel.PDF")
                             Sample.novel_last_page)) = 0
    /\ pages (snd (open_file Sample.lib (lit "/books/Novel.PDF") Sample.novel_last_page))
       = pdf_units reader_pages.
Proof.
  refine (proj1 (open_file_replaces_pages Sample.lib (lit "/books/Novel.PDF")
                   Sample.novel_last_page _) _ _).
  - discriminate.
  - reflexivity.
  - reflexivity.
Defined.

(** ** The file dialog *)

Lemma wildcard_literal (q t : str) :
  Forall (fun c => c <> FileDialog.star /\ c <> FileDialog.question) q ->
  FileDialog.wildcard q t = true -> t = q.
Proof.
  intros Hq. revert t. induction Hq as [|c q [Hs Hq'] _ IH]; intros t H.
  - destruct t; [reflexivity|discriminate].
  - cbn [FileDialog.wildcard] in H.
    apply N.eqb_neq in Hs, Hq'. rewrite Hs, Hq' in H.
    destruct t as [|d t]; [discriminate|].
    apply andb_true_iff in H. destruct H as [Hc Ht].
    apply N.eqb_eq in Hc. subst d. f_equal. apply IH. exact Ht.
Qed.

Lemma wildcard_star (q s : str) :
  FileDialog.wildcard (FileDialog.star :: q) s = true ->
  exists stem t, s = stem ++ t /\ FileDialog.wildcard q t = true.
Proof.
  cbn [FileDialog.wildcard]. rewrite N.eqb_refl.
  induction s as [|c s IH]; intros H; apply orb_true_iff in H; destruct H as [H|H].
  - exists [], []. split; [reflexivity|exact H].
  - discriminate.
  - exists [], (c :: s). split; [reflexivity|exact H].
  - destruct (IH H) as (stem & t & -> & Ht).
    exists (c :: stem), t. split; [reflexivity|exact Ht].
Qed.

Lemma endswith_app (stem suffix : str) : endswith (stem ++ suffix) suffix = true.
Proof.
  unfold endswith. rewrite length_app. apply andb_true_iff. split.
  - apply Nat.leb_le. lia.
  - replace (List.length stem + List.length suffix - List.length suffix)%nat
      with (List.length stem + 0)%nat by lia.
    rewrite skipn_app, Nat.add_0_r, skipn_all.
    replace (List.length stem - List.length stem)%nat with 0%nat by lia.
    cbn [skipn app]. apply str_eqb_eq. reflexivity.
Qed.

Lemma offered_by_dialog_filter :
  FileDialog.offered_patterns dialog_filter
  = [lit "*.pdf"; lit "*.epub"; lit "*.pdf"; lit "*.epub"; lit "*.*"].
Proof. reflexivity. Qed.

Lemma star_suffix_matches (suffix name : str) :
  Forall (fun c => c <> FileDialog.star /\ c <> FileDialog.question) (lower suffix) ->
  FileDialog.matches (FileDialog.star :: suffix) name = true ->
  endswith (lower name) (lower suffix) = true.
Proof.
  unfold FileDialog.matches. intros Hlit H.
  change (lower (FileDialog.star :: suffix)) with (FileDialog.star :: lower suffix) in H.
  apply wildcard_star in H. destruct H as (stem & t & -> & Ht).
  apply wildcard_literal in Ht; [|exact Hlit]. subst t. apply endswith_app.
Qed.

(** C8, as stated, does not hold: the filter string also offers the pattern
    of its fourth filter, All Files, under which the dialog lists
    [notes.txt]. *)
Lemma dialog_filter_not_restricted :
  ~ FileDialog.restricted_to_pdf_and_epub dialog_filter.
Proof.
  intros H.
  specialize (H (lit "*.*") (lit "notes.txt")).
  rewrite offered_by_dialog_filter in H.
  assert (Hno : FileDialog.is_pdf_or_epub (lit "notes.txt") = false) by reflexivity.
  rewrite H in Hno; [discriminate| |reflexivity].
  do 4 right. left. reflexivity.
Qed.

(** C8, amended: the filter string offers the patterns of four filters;
    those of the first three (documents, PDF files, EPUB files) match only
    names that end in [.pdf] or [.epub], in either case of the letters,
    while the pattern of the fourth matches names with other extensions
    too. *)
Theorem dialog_filter_patterns (pattern name : str)
    (Hoffered : In pattern (FileDialog.offered_patterns dialog_filter))
    (Hnot_all : pattern <> lit "*.*")
    (Hmatch : FileDialog.matches pattern name = true) :
  FileDialog.is_pdf_or_epub name = true.
Proof.
  rewrite offered_by_dialog_filter in Hoffered.
  assert (Hpdf : FileDialog.matches (lit "*.pdf") name = true ->
                 FileDialog.is_pdf_or_epub name = true).
  { intros H. unfold FileDialog.is_pdf_or_epub. apply orb_true_iff. left.
    apply (star_suffix_matches (lit ".pdf")); [|exact H].
    repeat constructor; discriminate. }
  assert (Hepub : FileDialog.matches (lit "*.epub") name = true ->
                  FileDialog.is_pdf_or_epub name = true).
  { intros H. unfold FileDialog.is_pdf_or_epub. apply orb_true_iff. right.
    apply (star_suffix_matches (lit ".epub")); [|exact H].
    repeat constructor; discriminate. }
  destruct Hoffered as [<-|[<-|[<-|[<-|[<-|[]]]]]]; auto; congruence.
Qed.

Lemma dialog_filter_patterns_witness :
  FileDialog.is_pdf_or_epub (lit "Novel.PDF") = true.
Proof.
  refine (dialog_filter_patterns (lit "*.pdf") (lit "Novel.PDF") _ _ _).
  - vm_compute. left. reflexivity.
  - vm_compute. discriminate.
  - vm_compute. reflexivity.
Defined.

(** ** Failed and empty loads *)

(** When the PDF reader cannot be built, [open_file] shows the error box,
    and the window it leaves has the book type of a PDF and no pages; path,
    title, cursor and font size are the ones it found. *)
Lemma open_file_pdf_reader_fails (lib : Libraries) (path : str) (w : Window) (e : exn) :
  path <> [] ->
  extension path = lit ".pdf" ->
  PdfReader lib path = Raise e ->
  open_file lib path w
  = (Ok tt,
     set_events (events w ++ [file_dialog_shown; failure_shown e])
       (set_pages [] (set_current_book_type (Some (lit "pdf")) w))).
Proof.
  intros Hsel Hext Hfail. rewrite open_file_run. cbv zeta.
  destruct path as [|c path']; [congruence|].
  rewrite Hext. change (str_eqb (lit ".pdf") (lit ".pdf")) with true. cbv iota.
  rewrite load_pdf_run, Hfail. destruct w. unfold after_load. run.
  rewrite <- app_assoc. reflexivity.
Qed.

(** X19: A normal return of [load_epub] leaves at least one unit. *)
Lemma load_epub_not_empty (lib : Libraries) (path : str) (w : Window) :
  fst (load_epub lib path w) = Ok tt -> pages (snd (load_epub lib path w)) <> [].
Proof.
  rewrite load_epub_run.
  destruct (read_epub lib path) as [it|e]; [|discriminate].
  destruct (epub_end lib it) as [[]|e]; [|discriminate].
  intros _. destruct w. run. destruct (epub_units lib it); discriminate.
Qed.

(** A normal return of [load_pdf] leaves as many units as the reader
    yielded pages: none when the document has no page. *)
Lemma load_pdf_without_pages (lib : Libraries) (path : str) (w : Window) :
  PdfReader lib path = Ok Stop ->
  load_pdf lib path w
  = (Ok tt, set_pages [] (set_current_book_type (Some (lit "pdf")) w)).
Proof. intros H. rewrite load_pdf_run, H. reflexivity. Qed.


(** X21: [open_file] keeps the cursor on a page, except when the extractor raises
    and when a PDF document has no page. *)
Lemma cursor_after_open_file (lib : Libraries) (path : str) (w : Window) :
  cursor_in_range w ->
  cursor_in_range (snd (open_file lib path w))
  \/ (extension path = lit ".pdf"
      /\ (fst (load_pdf lib path w) <> Ok tt \/ pages (snd (load_pdf lib path w)) = []))
  \/ (extension path = lit ".epub" /\ fst (load_epub lib path w) <> Ok tt).
Proof.
  intros Hc. rewrite open_file_run. cbv zeta.
  destruct path as [|c path'].
  { left. destruct w. exact Hc. }
  destruct (str_eqb _ (lit ".pdf")) eqn:Hpdf;
    [|destruct (str_eqb _ (lit ".epub")) eqn:Hepub].
  - apply str_eqb_eq in Hpdf. rewrite !load_pdf_run.
    destruct (PdfReader lib _) as [it|e];
      [destruct (iter_end it) as [[]|e]|];
      try (right; left; split; [exact Hpdf|left; discriminate]).
    destruct (pdf_units it) as [|u us] eqn:Hu.
    + right. left. split; [exact Hpdf|right]. reflexivity.
    + left. destruct w. unfold after_load, cursor_in_range. run. redraw.
      pose proof (len_cons_pos u us). lia.
  - apply str_eqb_eq in Hepub. rewrite !load_epub_run.
    destruct (read_epub lib _) as [it|e];
      [destruct (epub_end lib it) as [[]|e]|];
      try (right; right; split; [exact Hepub|discriminate]).
    left. destruct w. unfold after_load, cursor_in_range. run. redraw.
    destruct (epub_units lib it) as [|u us].
    + cbv. split; discriminate.
    + pose proof (len_cons_pos u us). lia.
  - left. destruct w. exact Hc.
Qed.

(** C1, on a file that is not a PDF under a [.pdf] name, opened while the
    four-page document is shown at its last page: the extractor raises and
    the error box is shown after the file dialog, but the window that is
    left has no pages any more, while its path, title and cursor are still
    those of the document that was shown. *)
Theorem open_file_failed_load_loses_pages :
  let path := lit "/books/scan.pdf" in
  let w := Sample.novel_last_page in
  let w' := snd (open_file Sample.lib path w) in
  fst (load_pdf Sample.lib path w) = Raise (Error (lit "EOF marker not found"))
  /\ events w'
     = events w ++ [file_dialog_shown; failure_shown (Error (lit "EOF marker not found"))]
  /\ pages w = [lit " Chapter 1 "; lit "[Empty page]"; lit "[Empty page]"; lit "[Empty page]"]
  /\ pages w' = []
  /\ current_book_path w' = Some (lit "/books/Novel.PDF")
  /\ current_book_title w' = lit "Novel.PDF"
  /\ current_index w' = 3
  /\ ~ same_fields w w'.
Proof.
  cbv zeta.
  do 7 (split; [vm_compute; reflexivity|]).
  unfold same_fields. intros (_ & _ & _ & Hp & _). vm_compute in Hp. discriminate.
Qed.

(** C2, on a PDF document without pages: [load_pdf] returns normally and
    leaves no unit at all, where [load_epub] on a book without items leaves
    its placeholder; [open_file] then redraws the window as if no document
    were loaded. *)
Theorem load_pdf_without_pages_leaves_none :
  let path := lit "/books/blank.pdf" in
  load_pdf Sample.lib path Sample.novel
  = (Ok tt, set_pages [] Sample.novel)
  /\ fst (open_file Sample.lib path Sample.novel) = Ok tt
  /\ pages (snd (open_file Sample.lib path Sample.novel)) = []
  /\ In (setPlainText (lit "No document loaded."))
        (events (snd (open_file Sample.lib path Sample.novel)))
  /\ pages (snd (load_epub Sample.lib (lit "/books/empty.epub") Sample.novel))
     = [lit "<h3>No readable content found.</h3>"].
Proof.
  cbv zeta.
  do 3 (split; [vm_compute; reflexivity|]).
  split; [|vm_compute; reflexivity].
  vm_compute. do 6 right. left. reflexivity.
Qed.

(** C3, on an EPUB whose second item the normaliser rejects, opened while
    the four-page document is shown at its last page: before, the cursor
    designates a page; after [open_file] has shown the error box, pages
    holds the one unit appended before the exception and the cursor is
    still 3, outside the bounds; the next [zoom_in] raises [IndexError]
    when it redraws. *)
Theorem open_file_failed_load_strands_cursor :
  let path := lit "/books/broken.epub" in
  let w := Sample.novel_last_page in
  let w' := snd (open_file Sample.lib path w) in
  cursor_in_range w
  /\ fst (open_file Sample.lib path w) = Ok tt
  /\ pages w' = [lit "<p>one</p>"]
  /\ current_index w' = 3
  /\ ~ cursor_in_range w'
  /\ fst (zoom_in w') = Raise IndexError.
Proof.
  cbv zeta.
  split; [unfold cursor_in_range; vm_compute; split; discriminate|].
  do 3 (split; [vm_compute; reflexivity|]).
  split; [|vm_compute; reflexivity].
  unfold cursor_in_range. vm_compute. intros [_ H]. apply H. reflexivity.
Qed.


(** * Further properties *)

(** ** The redraw *)




(** ** What [open_file] leaves *)

(** Every field after [open_file], from the outcome of the extractor: the
    font size is kept; without a selection or an extractor nothing changes;
    otherwise pages and book type are those the extractor left, and path,
    title and cursor are updated after a normal return of the extractor and
    kept after an exception, which is shown in the error box. *)
Lemma open_file_outcome (lib : Libraries) (path : str) (w : Window) :
  exists w',
    open_file lib path w = (Ok tt, w')
    /\ current_font_size w' = current_font_size w
    /\ match (if truthy path then extractor lib path else None) with
       | None => same_fields w w'
       | Some load =>
           pages w' = pages (snd (load w))
           /\ current_book_type w' = current_book_type (snd (load w))
           /\ match fst (load w) with
              | Ok _ =>
                  current_book_path w' = Some path
                  /\ current_book_title w' = basename path
                  /\ current_index w' = 0
              | Raise e =>
                  current_book_path w' = current_book_path w
                  /\ current_book_title w' = current_book_title w
                  /\ current_index w' = current_index w
                  /\ events w' = events w ++ [file_dialog_shown; failure_shown e]
              end
       end.
Proof.
  assert (Hfirst : forall us : list str, us = [] \/ 0 <= 0 <= len us - 1).
  { intros [|u us]; [left; reflexivity|right]. pose proof (len_cons_pos u us). lia. }
  rewrite open_file_run. cbv zeta. unfold extractor.
  destruct path as [|c path']; cbn [truthy].
  { eexists. split; [reflexivity|]. destruct w. repeat split. }
  destruct (str_eqb _ (lit ".pdf")); [|destruct (str_eqb _ (lit ".epub"))].
  - rewrite !load_pdf_run.
    destruct (PdfReader lib _) as [it|e]; [destruct (iter_end it) as [[]|e]|];
      destruct w as [ty pa ti pg ci fs ev]; unfold after_load; run.
    + redraw. replace r with (Ok tt : result unit)
        by (symmetry; destruct (Hfirst (pdf_units it)) as [Hu|Hu];
            [apply Hempty; exact Hu|apply Hok; exact Hu]).
      eexists. split; [reflexivity|]. run. repeat split.
    + eexists. split; [reflexivity|]. run. rewrite <- app_assoc. repeat split.
    + eexists. split; [reflexivity|]. run. rewrite <- app_assoc. repeat split.
  - rewrite !load_epub_run.
    destruct (read_epub lib _) as [it|e]; [destruct (epub_end lib it) as [[]|e]|];
      destruct w as [ty pa ti pg ci fs ev]; unfold after_load; run.
    + redraw.
      replace r with (Ok tt : result unit)
        by (symmetry; apply Hok; destruct (epub_units lib it) as [|u us];
            [cbv; split; discriminate|pose proof (len_cons_pos u us); lia]).
      eexists. split; [reflexivity|]. run. repeat split.
    + eexists. split; [reflexivity|]. run. rewrite <- app_assoc. repeat split.
    + eexists. split; [reflexivity|]. run. rewrite <- app_assoc. repeat split.
  - eexists. split; [reflexivity|]. destruct w. repeat split.
Qed.

(** ** What the other actions leave *)

Ltac settle_redraw :=
  match goal with
  | Hempty : ?pg = [] -> ?r = Ok tt /\ _,
    Hok : _ -> ?r = Ok tt,
    Hexn : ?r <> Ok tt -> ?r = Raise IndexError |- _ =>
      eexists r, _; split; [reflexivity|]; run;
      unfold drawable, cursor_in_range in *; run;
      repeat match goal with
             | |- _ /\ _ => split
             | |- ?x = ?x => reflexivity
             end;
      try (intros; lia);
      try (intros [Hnone|Hin];
           [first [discriminate
                  |split; [apply Hempty; exact Hnone|left; exact Hnone]]
           |split; [apply Hok|right]; unfold len in *; cbn [List.length] in *; lia]);
      try (destruct r as [[]|e]; [left; reflexivity|right; apply Hexn; discriminate])
  end.

Ltac settle_unchanged :=
  eexists (Ok tt), _; split; [reflexivity|]; run;
  unfold drawable, cursor_in_range in *; run;
  repeat match goal with
         | |- _ /\ _ => split
         | |- ?x = ?x => reflexivity
         end;
  try (intros; lia);
  try (let Hd := fresh "Hd" in intros Hd; split; [reflexivity|exact Hd]);
  try (left; reflexivity).

(** Navigation, zoom and the about box keep book type, path, title and
    pages; they never make the cursor negative; on a window that can be
    redrawn they return normally and leave such a window; and the only
    exception they raise is [IndexError]. *)
Lemma other_action_outcome (lib : Libraries) (a : Action) (w : Window) :
  (forall path, a <> Open path) ->
  exists r w',
    trigger lib a w = (r, w')
    /\ current_book_type w' = current_book_type w
    /\ current_book_path w' = current_book_path w
    /\ current_book_title w' = current_book_title w
    /\ pages w' = pages w
    /\ (0 <= current_index w -> 0 <= current_index w')
    /\ (drawable w -> r = Ok tt /\ drawable w')
    /\ (r = Ok tt \/ r = Raise IndexError).
Proof.
  intros Hnot. destruct w as [ty pa ti pg ci fs ev].
  destruct a as [path| | |reply| | |]; cbn [trigger].
  - exfalso. apply (Hnot path). reflexivity.
  - unfold go_prev. run. destruct pg as [|p ps]; [settle_unchanged|].
    destruct (Z.gtb_spec ci 0); run; [redraw; settle_redraw|settle_unchanged].
  - unfold go_next. run. destruct pg as [|p ps]; [settle_unchanged|].
    destruct (Z.ltb_spec ci (len (p :: ps) - 1)); run;
      [redraw; settle_redraw|settle_unchanged].
  - unfold go_to_page_dialog. run. destruct pg as [|p ps]; [settle_unchanged|].
    pose proof (len_cons_pos p ps) as Hlen.
    destruct reply as [typed|]; unfold QInputDialog_getInt; run;
      [redraw; settle_redraw|settle_unchanged].
  - unfold zoom_in. run. destruct (fs + 1 >? 40); run; redraw; settle_redraw.
  - unfold zoom_out. run. destruct (fs - 1 <? 8); run; redraw; settle_redraw.
  - unfold show_about. run. settle_unchanged.
Qed.


(** ** Exceptions *)



(** ** What holds of every window the program reaches *)

Lemma unit_of_page_not_blank (page : PageObject) : not_blank (unit_of_page_spec page).
Proof.
  destruct page as [[[text|]|e]]; unfold unit_of_page_spec, not_blank;
    cbn [extract_text]; try (split; discriminate).
  destruct (strip text) as [|c s] eqn:Hs; [split; discriminate|].
  split; [|congruence]. intros ->. discriminate.
Qed.

Lemma pdf_units_not_blank (it : iter PageObject) : Forall not_blank (pdf_units it).
Proof.
  induction it as [|page rest IH|e]; cbn [pdf_units]; constructor;
    [apply unit_of_page_not_blank|exact IH].
Qed.

Lemma first_unit_drawable (w : Window) : current_index w = 0 -> drawable w.
Proof.
  intros H0. unfold drawable, cursor_in_range. rewrite H0.
  destruct (pages w) as [|u us]; [left; reflexivity|right].
  pose proof (len_cons_pos u us). lia.
Qed.

(** The extractor of a path is one of the two loaders. *)
Lemma extractor_cases (lib : Libraries) (path : str) (load : M Window unit) :
  extractor lib path = Some load ->
  (extension path = lit ".pdf" /\ load = load_pdf lib path)
  \/ (extension path = lit ".epub" /\ load = load_epub lib path).
Proof.
  unfold extractor.
  destruct (str_eqb _ (lit ".pdf")) eqn:Hpdf;
    [|destruct (str_eqb _ (lit ".epub")) eqn:Hepub]; intros H; inversion H; subst.
  - left. split; [apply str_eqb_eq; exact Hpdf|reflexivity].
  - right. split; [apply str_eqb_eq; exact Hepub|reflexivity].
Qed.

(** X4: The cursor is never negative: on every window the program reaches,
    whatever the libraries did, [current_index >= 0]. *)
Theorem cursor_never_negative (lib : Libraries) (w : Window) (Hreach : reachable lib w) :
  0 <= current_index w.
Proof.
  induction Hreach as [|a w Hreach IH]; [cbv; discriminate|].
  destruct a as [path| | |reply| | |].
  1: { cbn [trigger].
       destruct (open_file_outcome lib path w) as (w' & E & _ & Hm). rewrite E. cbn [snd].
       destruct (if truthy path then extractor lib path else None) as [load|].
       - destruct Hm as (_ & _ & Hm). destruct (fst (load w)) as [[]|e].
         + destruct Hm as (_ & _ & ->). lia.
         + destruct Hm as (_ & _ & -> & _). exact IH.
       - destruct Hm as (_ & _ & _ & _ & -> & _). exact IH. }
  all: match goal with
       | |- context [trigger ?l ?a ?w0] =>
           destruct (other_action_outcome l a w0) as
             (r & w' & E & _ & _ & _ & _ & Hi & _); [discriminate|];
           rewrite E; cbn [snd]; apply Hi; exact IH
       end.
Qed.

Lemma cursor_never_negative_witness :
  0 <= current_index
         (snd (trigger Sample.lib Prev (snd (trigger Sample.lib Prev (snd init))))).
Proof.
  apply (cursor_never_negative Sample.lib).
  apply reachable_trigger, reachable_trigger, reachable_init.
Defined.

(** X5: Title and path go together on every window the program reaches: the
    title is [Untitled] while no document was loaded, and afterwards the
    last component of the recorded path. *)
Theorem title_follows_path (lib : Libraries) (w : Window) (Hreach : reachable lib w) :
  title_of_path w.
Proof.
  unfold title_of_path.
  induction Hreach as [|a w Hreach IH]; [reflexivity|].
  destruct a as [path| | |reply| | |].
  1: { cbn [trigger].
       destruct (open_file_outcome lib path w) as (w' & E & _ & Hm). rewrite E. cbn [snd].
       destruct (if truthy path then extractor lib path else None) as [load|].
       - destruct Hm as (_ & _ & Hm). destruct (fst (load w)) as [[]|e].
         + destruct Hm as (-> & -> & _). reflexivity.
         + destruct Hm as (-> & -> & _). exact IH.
       - destruct Hm as (_ & -> & -> & _). exact IH. }
  all: match goal with
       | |- context [trigger ?l ?a ?w0] =>
           destruct (other_action_outcome l a w0) as
             (r & w' & E & _ & Hp & Ht & _); [discriminate|];
           rewrite E; cbn [snd]; rewrite Hp, Ht; exact IH
       end.
Qed.

Lemma title_follows_path_witness :
  title_of_path (snd (trigger Sample.lib (Open (lit "/books/Novel.PDF")) (snd init))).
Proof.
  apply (title_follows_path Sample.lib).
  apply reachable_trigger, reachable_init.
Defined.

(** X6: Pages come from a loader on every window the program reaches: while no
    book type is set there are no pages; under the book type of a PDF no
    page is empty or made of whitespace only, also after a load that
    failed. *)
Theorem pages_follow_book_type (lib : Libraries) (w : Window) (Hreach : reachable lib w) :
  pages_of_type w.
Proof.
  unfold pages_of_type.
  induction Hreach as [|a w Hreach IH]; [reflexivity|].
  destruct a as [path| | |reply| | |].
  1: { cbn [trigger].
       destruct (open_file_outcome lib path w) as (w' & E & _ & Hm). rewrite E. cbn [snd].
       destruct (if truthy path then extractor lib path else None) as [load|] eqn:Hx.
       - destruct Hm as (-> & -> & _).
         destruct (truthy path); [|discriminate].
         destruct (extractor_cases lib path load Hx) as [[_ ->]|[_ ->]].
         + rewrite load_pdf_run.
           destruct (PdfReader lib path) as [it|e]; destruct w; run; left;
             (split; [reflexivity|]); [apply pdf_units_not_blank|constructor].
         + rewrite load_epub_run.
           destruct (read_epub lib path) as [it|e];
             [destruct (epub_end lib it) as [[]|e]|]; destruct w; run; right; reflexivity.
       - destruct Hm as (-> & _ & _ & -> & _). exact IH. }
  all: match goal with
       | |- context [trigger ?l ?a ?w0] =>
           destruct (other_action_outcome l a w0) as
             (r & w' & E & Hty & _ & _ & Hpg & _); [discriminate|];
           rewrite E; cbn [snd]; rewrite Hty, Hpg; exact IH
       end.
Qed.

Lemma pages_follow_book_type_witness :
  pages_of_type
    (snd (trigger Sample.lib (Open (lit "/books/scan.pdf"))
            (snd (trigger Sample.lib (Open (lit "/books/Novel.PDF")) (snd init))))).
Proof.
  apply (pages_follow_book_type Sample.lib).
  apply reachable_trigger, reachable_trigger, reachable_init.
Defined.

(** X3: When no document fails part way (a library that raises does so before
    the loop appended a unit), every window the program reaches can be
    redrawn and every action on it returns normally: the program never
    raises. *)
Theorem no_partial_failure_no_exception (lib : Libraries)
    (Hlib : fails_before_first_unit lib) (w : Window) (Hreach : reachable lib w) :
  drawable w /\ forall a, fst (trigger lib a w) = Ok tt.
Proof.
  assert (Hdraw : drawable w).
  { induction Hreach as [|a w Hreach IH]; [left; reflexivity|].
    destruct a as [path| | |reply| | |].
    1: { cbn [trigger].
         destruct (open_file_outcome lib path w) as (w' & E & _ & Hm). rewrite E. cbn [snd].
         destruct (if truthy path then extractor lib path else None) as [load|] eqn:Hx.
         - destruct Hm as (Hpg & _ & Hm).
           destruct (fst (load w)) as [[]|e] eqn:Hr.
           + apply first_unit_drawable. apply Hm.
           + left. rewrite Hpg.
             destruct (truthy path); [|discriminate].
             destruct (Hlib path) as [Hpdf Hepub].
             destruct (extractor_cases lib path load Hx) as [[_ ->]|[_ ->]].
             * rewrite load_pdf_run in *.
               destruct (PdfReader lib path) as [it|e']; [|destruct w; reflexivity].
               cbn [fst] in Hr. destruct Hpdf as [Hend|Hnone]; [congruence|].
               destruct w. run. exact Hnone.
             * rewrite load_epub_run in *.
               destruct (read_epub lib path) as [it|e']; [|destruct w; reflexivity].
               destruct (epub_end lib it) as [[]|e'']; [discriminate|].
               destruct Hepub as [Hend|Hnone]; [discriminate|].
               destruct w. run. exact Hnone.
         - destruct Hm as (_ & _ & _ & Hpg & Hi & _).
           unfold drawable, cursor_in_range in *. rewrite Hpg, Hi. exact IH. }
    all: match goal with
         | |- context [trigger ?l ?a ?w0] =>
             destruct (other_action_outcome l a w0) as
               (r & w' & E & _ & _ & _ & _ & _ & Hd & _); [discriminate|];
             rewrite E; cbn [snd]; apply Hd; exact IH
         end. }
  split; [exact Hdraw|].
  intros a. destruct a as [path| | |reply| | |].
  1: { cbn [trigger]. destruct (open_file_outcome lib path w) as (w' & E & _).
       rewrite E. reflexivity. }
  all: match goal with
       | |- context [trigger ?l ?a ?w0] =>
           destruct (other_action_outcome l a w0) as
             (r & w' & E & _ & _ & _ & _ & _ & Hd & _); [discriminate|];
           rewrite E; cbn [fst]; apply Hd; exact Hdraw
       end.
Qed.

Lemma no_partial_failure_no_exception_witness :
  let lib := one_book_lib Sample.four_pages in
  let w := snd (trigger lib Next (snd (trigger lib (Open (lit "/b/a.pdf")) (snd init)))) in
  drawable w /\ forall a, fst (trigger lib a w) = Ok tt.
Proof.
  cbv zeta.
  apply (no_partial_failure_no_exception (one_book_lib Sample.four_pages)).
  - intros path. split; [left; reflexivity|exact I].
  - apply reachable_trigger, reachable_trigger, reachable_init.
Defined.


(** ** Navigation, step by step *)

Ltac fields :=
  cbn [events pages current_index current_font_size
       current_book_type current_book_path current_book_title
       set_events set_pages set_current_index set_current_font_size
       set_current_book_type set_current_book_path set_current_book_title
       fst snd] in *.











(** ** Zoom, step by step *)

(** X11: Within the bounds, [zoom_out] undoes [zoom_in] below 40 and [zoom_in]
    undoes [zoom_out] above 8: the six fields are as they were.  At the
    bounds the first step does nothing and the second is not undone: from
    40, [zoom_in] then [zoom_out] leaves 39, and from 8, [zoom_out] then
    [zoom_in] leaves 9. *)
Theorem zoom_in_and_zoom_out_undo_each_other (w : Window) (Hfont : font_in_range w) :
  (current_font_size w < 40 -> same_fields w (snd (zoom_out (snd (zoom_in w)))))
  /\ (8 < current_font_size w -> same_fields w (snd (zoom_in (snd (zoom_out w)))))
  /\ (current_font_size w = 40 ->
      current_font_size (snd (zoom_in w)) = 40
      /\ current_font_size (snd (zoom_out (snd (zoom_in w)))) = 39)
  /\ (current_font_size w = 8 ->
      current_font_size (snd (zoom_out w)) = 8
      /\ current_font_size (snd (zoom_in (snd (zoom_out w)))) = 9).
Proof.
  unfold font_in_range in Hfont.
  destruct (zoom_in_run w) as (r1 & e1 & E1 & _).
  destruct (zoom_out_run w) as (r2 & e2 & E2 & _).
  rewrite E1, E2. cbn [snd].
  match goal with |- context [zoom_out ?w1] =>
    destruct (zoom_out_run w1) as (r3 & e3 & E3 & _) end.
  match goal with |- context [zoom_in ?w1] =>
    destruct (zoom_in_run w1) as (r4 & e4 & E4 & _) end.
  rewrite E3, E4. destruct w as [ty pa ti pg ci fs ev]. unfold same_fields. fields.
  split; [|split; [|split]]; intros Hsize.
  - repeat (split; [reflexivity|]). lia.
  - repeat (split; [reflexivity|]). lia.
  - split; lia.
  - split; lia.
Qed.

Lemma zoom_in_and_zoom_out_undo_each_other_witness :
  same_fields Sample.novel (snd (zoom_out (snd (zoom_in Sample.novel)))).
Proof.
  refine (proj1 (zoom_in_and_zoom_out_undo_each_other Sample.novel _) _).
  - unfold font_in_range. vm_compute. split; discriminate.
  - vm_compute. reflexivity.
Defined.





(** ** Loading, document by document *)

Lemma pdf_units_of_list (pgs : list PageObject) :
  pdf_units (iter_of_list pgs) = List.map unit_of_page_spec pgs
  /\ iter_end (iter_of_list pgs) = Ok tt.
Proof.
  induction pgs as [|page pgs [IH1 IH2]]; cbn [iter_of_list pdf_units iter_end List.map].
  - split; reflexivity.
  - rewrite IH1. split; [reflexivity|exact IH2].
Qed.

(** X13: When the reader yields all the pages of a document, [load_pdf] returns
    normally, also when [extract_text] raises on some or all of them, and
    leaves one unit per page, in page order: page number [k] of the view is
    page [k] of the document. *)
Theorem load_pdf_one_unit_per_page (lib : Libraries) (path : str) (w : Window)
    (pgs : list PageObject) (Hread : PdfReader lib path = Ok (iter_of_list pgs)) :
  load_pdf lib path w
  = (Ok tt,
     set_pages (List.map unit_of_page_spec pgs)
       (set_current_book_type (Some (lit "pdf")) w))
  /\ len (pages (snd (load_pdf lib path w))) = len pgs
  /\ forall k page,
       nth_error pgs k = Some page ->
       nth_error (pages (snd (load_pdf lib path w))) k = Some (unit_of_page_spec page).
Proof.
  rewrite load_pdf_run, Hread.
  destruct (pdf_units_of_list pgs) as [-> ->]. split; [reflexivity|].
  cbn [snd]. destruct w. fields. split.
  - unfold len. rewrite length_map. reflexivity.
  - intros k page Hk. apply map_nth_error. exact Hk.
Qed.

Lemma load_pdf_one_unit_per_page_witness :
  len (pages (snd (load_pdf (one_book_lib (iter_of_list [{| extract_text := Ok None |}]))
                     (lit "/b/a.pdf") fresh)))
  = len [{| extract_text := Ok None |}].
Proof.
  refine (proj1 (proj2 (load_pdf_one_unit_per_page
            (one_book_lib (iter_of_list [{| extract_text := Ok None |}]))
            (lit "/b/a.pdf") fresh [{| extract_text := Ok None |}] _))).
  reflexivity.
Defined.

Lemma epub_units_of_list (lib : Libraries) (items : list EpubItem) (cleaned : list str) :
  Forall2 (fun item clean_html => prettify lib (get_content item) = Ok clean_html)
          items cleaned ->
  epub_units lib (iter_of_list items) = cleaned
  /\ epub_end lib (iter_of_list items) = Ok tt.
Proof.
  induction 1 as [|item html items cleaned Hp _ [IH1 IH2]];
    cbn [iter_of_list epub_units epub_end].
  - split; reflexivity.
  - rewrite Hp, IH1. split; [reflexivity|exact IH2].
Qed.

(** X14: When the book yields all its document items and the normaliser accepts
    each of them, [load_epub] returns normally and leaves the normalised
    items, one unit per item in order; the placeholder stands in exactly
    when the book has no document item.  Unlike a PDF page, an item is kept
    as it is normalised, blank or not. *)
Theorem load_epub_one_unit_per_item (lib : Libraries) (path : str) (w : Window)
    (items : list EpubItem) (cleaned : list str)
    (Hread : read_epub lib path = Ok (iter_of_list items))
    (Hclean : Forall2 (fun item clean_html =>
                         prettify lib (get_content item) = Ok clean_html)
                      items cleaned) :
  load_epub lib path w
  = (Ok tt,
     set_pages (match items with
                | [] => [lit "<h3>No readable content found.</h3>"]
                | _ :: _ => cleaned
                end)
       (set_current_book_type (Some (lit "epub")) w)).
Proof.
  rewrite load_epub_run, Hread.
  destruct (epub_units_of_list lib items cleaned Hclean) as [-> ->].
  destruct Hclean; reflexivity.
Qed.

Lemma load_epub_one_unit_per_item_witness :
  load_epub Sample.lib (lit "/books/empty.epub") fresh
  = (Ok tt,
     set_pages [lit "<h3>No readable content found.</h3>"]
       (set_current_book_type (Some (lit "epub")) fresh)).
Proof.
  refine (load_epub_one_unit_per_item Sample.lib (lit "/books/empty.epub") fresh
            [] [] _ _).
  - vm_compute. reflexivity.
  - constructor.
Defined.

(** ** Opening, outcome by outcome *)

(** X15: When the extractor raises, [open_file] returns normally after showing,
    behind the file dialog, one error box whose text is the line [Failed to
    open file:] followed by the message of the exception; path, title,
    cursor and font size are kept, and nothing is redrawn. *)
Theorem open_file_shows_the_failure (lib : Libraries) (path : str) (w : Window)
    (load : M Window unit) (e : exn)
    (Hselected : path <> [])
    (Hextractor : extractor lib path = Some load)
    (Hraises : fst (load w) = Raise e) :
  let w' := snd (open_file lib path w) in
  fst (open_file lib path w) = Ok tt
  /\ events w'
     = events w
       ++ [file_dialog_shown;
           critical (lit "Error") (lit "Failed to open file:" ++ newline ++ str_of_exn e)]
  /\ current_book_path w' = current_book_path w
  /\ current_book_title w' = current_book_title w
  /\ current_index w' = current_index w
  /\ current_font_size w' = current_font_size w.
Proof.
  cbv zeta. destruct (open_file_outcome lib path w) as (w' & E & Hf & Hm).
  rewrite E. cbn [fst snd].
  destruct path as [|c path']; [congruence|]. cbn [truthy] in Hm.
  rewrite Hextractor in Hm. destruct Hm as (_ & _ & Hm). rewrite Hraises in Hm.
  destruct Hm as (Hp & Ht & Hi & Hev).
  split; [reflexivity|]. split; [exact Hev|]. repeat split; assumption.
Qed.

Lemma open_file_shows_the_failure_witness :
  current_index (snd (open_file Sample.lib (lit "/books/scan.pdf") Sample.novel_last_page))
  = current_index Sample.novel_last_page.
Proof.
  refine (proj1 (proj2 (proj2 (proj2 (proj2
            (open_file_shows_the_failure Sample.lib (lit "/books/scan.pdf")
               Sample.novel_last_page (load_pdf Sample.lib (lit "/books/scan.pdf"))
               (Error (lit "EOF marker not found")) _ _ _)))))).
  - discriminate.
  - vm_compute. reflexivity.
  - vm_compute. reflexivity.
Defined.

(** X16: [open_file] records path, title and cursor together, and only for a
    document whose extractor returned normally: either the three are as
    they were, or the extractor of the selected path returned normally and
    the path is the selected one, the title its last component, the cursor
    0 and the book type the one of its extension. *)
Theorem open_file_names_the_loaded_document (lib : Libraries) (path : str) (w : Window) :
  let w' := snd (open_file lib path w) in
  (current_book_path w' = current_book_path w
   /\ current_book_title w' = current_book_title w
   /\ current_index w' = current_index w)
  \/ (current_book_path w' = Some path
      /\ current_book_title w' = basename path
      /\ current_index w' = 0
      /\ ((extension path = lit ".pdf"
           /\ fst (load_pdf lib path w) = Ok tt
           /\ current_book_type w' = Some (lit "pdf"))
          \/ (extension path = lit ".epub"
              /\ fst (load_epub lib path w) = Ok tt
              /\ current_book_type w' = Some (lit "epub")))).
Proof.
  cbv zeta. destruct (open_file_outcome lib path w) as (w' & E & _ & Hm).
  rewrite E. cbn [snd].
  destruct (if truthy path then extractor lib path else None) as [load|] eqn:Hx.
  - destruct (truthy path); [|discriminate].
    destruct Hm as (_ & Hty & Hm).
    destruct (fst (load w)) as [[]|e] eqn:Hr.
    + right. destruct Hm as (Hp & Ht & Hi).
      repeat (split; [assumption|]).
      destruct (extractor_cases lib path load Hx) as [[Hext ->]|[Hext ->]].
      * left. split; [exact Hext|]. split; [exact Hr|]. rewrite Hty.
        rewrite load_pdf_run. destruct (PdfReader lib path); destruct w; reflexivity.
      * right. split; [exact Hext|]. split; [exact Hr|]. rewrite Hty.
        rewrite load_epub_run.
        destruct (read_epub lib path) as [it|]; [destruct (epub_end lib it)|];
          destruct w; reflexivity.
    + left. destruct Hm as (Hp & Ht & Hi & _). repeat split; assumption.
  - left. destruct Hm as (_ & Hp & Ht & _ & Hi & _). repeat split; assumption.
Qed.

(** X17: Only [open_file] changes the document: navigation, zoom and the about
    box leave book type, path, title and pages as they were; only the two
    zooms change the font size, and only the three navigation commands move
    the cursor. *)
Theorem only_open_file_changes_the_document (lib : Libraries) (a : Action) (w : Window)
    (Hother : forall path, a <> Open path) :
  let w' := snd (trigger lib a w) in
  current_book_type w' = current_book_type w
  /\ current_book_path w' = current_book_path w
  /\ current_book_title w' = current_book_title w
  /\ pages w' = pages w
  /\ (a <> ZoomIn -> a <> ZoomOut -> current_font_size w' = current_font_size w)
  /\ (a <> Prev -> a <> Next -> (forall reply, a <> GoTo reply) ->
      current_index w' = current_index w).
Proof.
  cbv zeta.
  destruct (other_action_outcome lib a w Hother) as (r & w' & E & Hty & Hp & Ht & Hpg & _).
  rewrite E. cbn [snd]. repeat (split; [assumption|]).
  split.
  - intros Hin Hout.
    destruct (trigger_effects lib a w) as (r0 & evs & w0 & E0 & _ & Hf & _).
    rewrite E in E0. inversion E0; subst r0 w0.
    destruct a; try congruence; exact Hf.
  - intros Hprev Hnext Hgoto.
    destruct a as [path| | |reply| | |]; cbn [trigger] in E.
    + exfalso. apply (Hother path). reflexivity.
    + congruence.
    + congruence.
    + exfalso. apply (Hgoto reply). reflexivity.
    + destruct (zoom_in_run w) as (r1 & evs & E1 & _). rewrite E1 in E.
      inversion E. reflexivity.
    + destruct (zoom_out_run w) as (r1 & evs & E1 & _). rewrite E1 in E.
      inversion E. reflexivity.
    + unfold show_about in E. destruct w. run_in E. inversion E. reflexivity.
Qed.

Lemma only_open_file_changes_the_document_witness :
  pages (snd (trigger Sample.lib Next Sample.novel)) = pages Sample.novel.
Proof.
  refine (proj1 (proj2 (proj2 (proj2
            (only_open_file_changes_the_document Sample.lib Next Sample.novel _))))).
  discriminate.
Defined.

(** ** The extension *)








(** ** Samples for the lemmas on loads and on the cursor *)

Lemma load_epub_not_empty_witness :
  pages (snd (load_epub Sample.lib (lit "/books/empty.epub") Sample.novel)) <> [].
Proof.
  apply (load_epub_not_empty Sample.lib (lit "/books/empty.epub") Sample.novel).
  vm_compute. reflexivity.
Defined.


Lemma cursor_after_open_file_witness :
  cursor_in_range (snd (open_file Sample.lib (lit "/books/Novel.PDF") Sample.novel_last_page))
  \/ (extension (lit "/books/Novel.PDF") = lit ".pdf"
      /\ (fst (load_pdf Sample.lib (lit "/books/Novel.PDF") Sample.novel_last_page) <> Ok tt
          \/ pages (snd (load_pdf Sample.lib (lit "/books/Novel.PDF")
                           Sample.novel_last_page)) = []))
  \/ (extension (lit "/books/Novel.PDF") = lit ".epub"
      /\ fst (load_epub Sample.lib (lit "/books/Novel.PDF") Sample.novel_last_page) <> Ok tt).
Proof.
  apply (cursor_after_open_file Sample.lib (lit "/books/Novel.PDF") Sample.novel_last_page).
  unfold cursor_in_range. vm_compute. split; discriminate.
Defined.
